(** * SmartCharge Helper PVPC: the charging advisor of [server.py]

    A shallow embedding of [smartcharge_helper_pvpc/server.py] and the
    properties of its price-window selection, of its two tools and of the
    gateway that serves them.

    Conventions of the model.
    - A Python [int] is a [Z].
    - A finite Python [float] is the rational number it stands for ([Q]).
      An [arithmetic] says how the result of an operation is rounded to a
      float and how [sum] adds floats; the program is embedded over any
      arithmetic, and three are given: [exact] (no rounding), [binary64]
      (IEEE 754 double precision, round to nearest even, [sum] adding from
      the left) and [binary64_compensated] (the same with the compensated
      [sum] of CPython 3.12 and later).  Overflow is not modelled.  The one
      non-finite float the source writes, [float('inf')], is kept: [pyfloat]
      extends the finite floats with the infinities and NaN, compared as
      IEEE 754 compares them.
    - A Python exception is a value of [exn]; a function that can raise
      returns a [result].
    - The network and the clock are the environment of the asynchronous
      methods: the transport is an oracle from requests to outcomes, and every
      request sent is recorded in a log. *)

From Stdlib Require Import ZArith QArith Qround List String Ascii Bool Lia Lqa.
From Stdlib Require Import Qabs Qpower DecimalString.
From Stdlib Require DecimalZ DecimalFacts.
From Stdlib Require Import Sorted Permutation.
Import ListNotations.

Local Open Scope Z_scope.

(** ** Exceptions and results *)

(** [create_error(message)] builds [McpError(ErrorData(code=-1, message))]:
    every error of the advisor is an [McpError], told apart by its message.
    The other constructors are the built-in exceptions the modelled
    statements can raise. *)
Inductive exn : Type :=
| McpError (message : string)
| ZeroDivisionError
| ValueError
| IndexError
| KeyError.

Inductive result (T : Type) : Type :=
| Ok (a : T)
| Raise (e : exn).

Arguments Ok {T} a.
Arguments Raise {T} e.

Definition create_error (message : string) : exn := McpError message.

Definition rbind {T U} (r : result T) (k : T -> result U) : result U :=
  match r with
  | Ok a => k a
  | Raise e => Raise e
  end.

Declare Scope result_scope.
Delimit Scope result_scope with result.
Notation "x <- r ;; k" := (rbind r (fun x => k))
  (at level 61, r at next level, right associativity) : result_scope.
Notation "' pat <- r ;; k" := (rbind r (fun x => match x with pat => k end))
  (at level 61, pat pattern, r at next level, right associativity) : result_scope.

(** A [for] loop whose body can raise: the state is threaded through the
    items in order and the first exception ends the loop. *)
Fixpoint for_each {S I} (body : S -> I -> result S) (items : list I) (s : S)
  : result S :=
  match items with
  | [] => Ok s
  | i :: rest => rbind (body s i) (for_each body rest)
  end.

(** ** Python floats *)

Inductive pyfloat : Type :=
| Fin (q : Q)
| PInf
| NInf
| NaN.

Definition Qltb (a b : Q) : bool := negb (Qle_bool b a).

(** [x < y] on floats. *)
Definition float_lt (x y : pyfloat) : bool :=
  match x, y with
  | NaN, _ | _, NaN => false
  | Fin a, Fin b => Qltb a b
  | Fin _, PInf => true
  | Fin _, NInf => false
  | PInf, _ => false
  | NInf, NInf => false
  | NInf, _ => true
  end.

(** How an arithmetic rounds: [fl x] is the float that stands for the real
    result [x] of an operation or for the decimal [x] of a literal, and
    [fsum xs] is what [sum] returns on the floats [xs]. *)
Class arithmetic : Type := {
  fl : Q -> Q;
  fsum : list Q -> Q
}.

(** [x * y] for a finite [x]. *)
Definition float_mul_fin {A : arithmetic} (x : Q) (y : pyfloat) : pyfloat :=
  match y with
  | Fin b => Fin (fl (x * b))
  | NaN => NaN
  | PInf => if Qltb 0 x then PInf else if Qltb x 0 then NInf else NaN
  | NInf => if Qltb 0 x then NInf else if Qltb x 0 then PInf else NaN
  end.

(** ** The Python built-ins the advisor uses *)

Module Py.

Definition len {T} (l : list T) : Z := Z.of_nat (List.length l).

(** [range(a, b)]: empty when [b <= a]. *)
Definition range (a b : Z) : list Z :=
  map (fun k => a + Z.of_nat k) (seq 0 (Z.to_nat (b - a))).

(** [l[i:j]] for [0 <= i], [0 <= j]: the slice is cut at the end of the
    list and is empty when [j <= i]. *)
Definition slice {T} (l : list T) (i j : Z) : list T :=
  firstn (Z.to_nat (j - i)) (skipn (Z.to_nat i) l).

(** [sum(xs)] on floats. *)
Definition sum {A : arithmetic} (xs : list Q) : Q := fsum xs.

(** [x / n] with an integer divisor. *)
Definition truediv {A : arithmetic} (x : Q) (n : Z) : result Q :=
  if n =? 0 then Raise ZeroDivisionError else Ok (fl (x / inject_Z n)%Q).

(** [int(x)] truncates toward zero. *)
Definition int (x : Q) : Z := Z.quot (Qnum x) (Z.pos (Qden x)).

(** [l[0]] and [l[-1]]. *)
Definition first {T} (l : list T) : result T :=
  match l with
  | [] => Raise IndexError
  | x :: _ => Ok x
  end.

Fixpoint last {T} (l : list T) : result T :=
  match l with
  | [] => Raise IndexError
  | [x] => Ok x
  | _ :: rest => last rest
  end.

(** [h in hours] on a list of integers. *)
Definition contains (hours : list Z) (h : Z) : bool :=
  existsb (Z.eqb h) hours.

End Py.

(** ** [generate_hour_range] *)

Definition generate_hour_range (start end_ : Z) : list Z :=
  if start <=? end_ then
    Py.range start (end_ + 1)
  else
    Py.range start 24 ++ Py.range 0 (end_ + 1).

(** ** [find_best_consecutive_hours] *)

Definition charger_power_kw : Q := 74 # 10.

(** [max(1, int((kwh / charger_power_kw) + 0.5))] *)
Definition hours_needed_of {A : arithmetic} (kwh : Q) : Z :=
  Z.max 1 (Py.int (fl (fl (kwh / fl charger_power_kw) + fl (1 # 2)))%Q).

(** The list comprehension [[(h, p) for h, p in prices if h in hour_range]]. *)
Definition filter_prices (prices : list (Z * Q)) (hour_range : list Z)
  : list (Z * Q) :=
  filter (fun hp => Py.contains hour_range (fst hp)) prices.

(** [if hours_needed > len(filtered_prices): hours_needed = len(filtered_prices)] *)
Definition clamp_hours (hours_needed : Z) (filtered_prices : list (Z * Q)) : Z :=
  if hours_needed >? Py.len filtered_prices then Py.len filtered_prices
  else hours_needed.

(** [filtered_prices[i:i + hours_needed]] *)
Definition window_at (filtered_prices : list (Z * Q)) (hours_needed i : Z)
  : list (Z * Q) :=
  Py.slice filtered_prices i (i + hours_needed).

(** [sum(price for _, price in window) / len(window)] *)
Definition window_avg {A : arithmetic} (window : list (Z * Q)) : result Q :=
  Py.truediv (Py.sum (map snd window)) (Py.len window).

(** The body of the search loop on the state
    [(best_avg_price, best_hours)]. *)
Definition search_step {A : arithmetic} (filtered_prices : list (Z * Q))
    (hours_needed : Z)
    (best : pyfloat * list Z) (i : Z) : result (pyfloat * list Z) :=
  let window := window_at filtered_prices hours_needed i in
  (avg_price <- window_avg window ;;
   if float_lt (Fin avg_price) (fst best) then
     Ok (Fin avg_price, map fst window)
   else
     Ok best)%result.

Definition NO_PRICES_IN_RANGE : string :=
  "No prices available in specified hour range".

Definition find_best_consecutive_hours {A : arithmetic}
    (prices : list (Z * Q)) (hour_range : list Z) (kwh : Q)
  : result (list Z * pyfloat) :=
  let filtered_prices := filter_prices prices hour_range in
  match filtered_prices with
  | [] => Raise (create_error NO_PRICES_IN_RANGE)
  | _ :: _ =>
      let hours_needed := clamp_hours (hours_needed_of kwh) filtered_prices in
      (best <- for_each (search_step filtered_prices hours_needed)
                 (Py.range 0 (Py.len filtered_prices - hours_needed + 1))
                 (PInf, []) ;;
       Ok (snd best, fst best))%result
  end.

(** The scenario of the specification: prices of the hours 22, 23, 0, ..., 7. *)
Definition scenario_prices : list (Z * Q) :=
  [ (22, 0.10%Q); (23, 0.10%Q); (0, 0.30%Q); (1, 0.05%Q); (2, 0.05%Q);
    (3, 0.05%Q); (4, 0.40%Q); (5, 0.40%Q); (6, 0.40%Q); (7, 0.40%Q) ].

(** ** Rounding and formatting *)

(** Nearest integer, ties to the even one: the rule of [round]. *)
Definition round_half_even (x : Q) : Z :=
  let f := Qfloor x in
  match (x - inject_Z f ?= 1 # 2)%Q with
  | Lt => f
  | Gt => f + 1
  | Eq => if Z.even f then f else f + 1
  end.

Definition pow10 (ndigits : nat) : Q := inject_Z (10 ^ Z.of_nat ndigits).

(** [round(x, ndigits)] on a finite float: the float nearest to the decimal
    of [ndigits] places nearest to [x]. *)
Definition py_round {A : arithmetic} (x : Q) (ndigits : nat) : Q :=
  fl (inject_Z (round_half_even (x * pow10 ndigits)) / pow10 ndigits)%Q.

(** [round(x, ndigits)] returns a non-finite float unchanged. *)
Definition py_round_float {A : arithmetic} (x : pyfloat) (ndigits : nat)
  : pyfloat :=
  match x with
  | Fin q => Fin (py_round q ndigits)
  | other => other
  end.

(** *** Three arithmetics *)

(** No rounding: every operation returns its real result. *)
Definition exact : arithmetic :=
  {| fl := fun x => x;
     fsum := fun xs => fold_left Qplus xs 0%Q |}.

(** [floor(log2 x)] for [0 < x]. *)
Definition Qlog2 (x : Q) : Z :=
  let k := Z.log2 (Qnum x) - Z.log2 (Z.pos (Qden x)) in
  if Qle_bool (2 ^ k)%Q x then k else k - 1.

(** The double nearest to [x], ties to the even significand: 53 bits of
    significand, the least exponent that of the subnormal numbers. *)
Definition binary64_round (x : Q) : Q :=
  if Qeq_bool x 0 then 0%Q
  else
    let a := Qabs x in
    let e := Z.max (-1074) (Qlog2 a - 52) in
    let m := round_half_even (a / 2 ^ e)%Q in
    let r := (inject_Z m * 2 ^ e)%Q in
    Qred (if Qltb x 0 then - r else r)%Q.

(** [sum] up to CPython 3.11: from the integer [0], adding from the left. *)
Definition sum_left (xs : list Q) : Q :=
  fold_left (fun acc x => binary64_round (acc + x)) xs 0%Q.

(** [sum] from CPython 3.12: the first float, then the compensated
    summation of Neumaier on the running sum [f] and the correction [c]. *)
Fixpoint sum_neumaier (xs : list Q) (f c : Q) : Q :=
  match xs with
  | [] => if Qeq_bool c 0 then f else binary64_round (f + c)
  | x :: rest =>
      let t := binary64_round (f + x) in
      let lost :=
        if Qle_bool (Qabs x) (Qabs f)
        then binary64_round (binary64_round (f - t) + x)
        else binary64_round (binary64_round (x - t) + f) in
      sum_neumaier rest t (binary64_round (c + lost))
  end.

Definition sum_compensated (xs : list Q) : Q :=
  match xs with
  | [] => 0%Q
  | x :: rest => sum_neumaier rest (binary64_round (0 + x)) 0%Q
  end.

Definition binary64 : arithmetic :=
  {| fl := binary64_round; fsum := sum_left |}.

Definition binary64_compensated : arithmetic :=
  {| fl := binary64_round; fsum := sum_compensated |}.

(** [str(n)] on an integer. *)
Definition str_int (n : Z) : string := NilZero.string_of_int (Z.to_int n).

(** [f"{n:02d}"]: decimal, filled with a zero up to width two. *)
Definition format_02d (n : Z) : string :=
  let s := str_int n in
  if (String.length s <? 2)%nat then ("0" ++ s)%string else s.

(** [f"{hour:02d}:00"] *)
Definition format_hour (hour : Z) : string := (format_02d hour ++ ":00")%string.

(** [needle in hay] on strings. *)
Fixpoint str_contains (needle hay : string) : bool :=
  if String.prefix needle hay then true
  else match hay with
       | EmptyString => false
       | String _ rest => str_contains needle rest
       end.

(** The euro sign, as its three UTF-8 bytes. *)
Definition EURO : string :=
  String (ascii_of_nat 226) (String (ascii_of_nat 130)
    (String (ascii_of_nat 172) EmptyString)).

(** [min(xs)] and [max(xs)]: [ValueError] on an empty list, else the first
    smallest (largest) element. *)
Definition py_min (xs : list Q) : result Q :=
  match xs with
  | [] => Raise ValueError
  | x :: rest => Ok (fold_left (fun m y => if Qltb y m then y else m) rest x)
  end.

Definition py_max (xs : list Q) : result Q :=
  match xs with
  | [] => Raise ValueError
  | x :: rest => Ok (fold_left (fun m y => if Qltb m y then y else m) rest x)
  end.

(** ** [datetime.strptime(date, "%Y-%m-%d")]

    The library compiles the format to the regular expression
    [(\d\d\d\d)-(1[0-2]|0[1-9]|[1-9])-(3[0-1]|[1-2]\d|0[1-9]|[1-9]| [1-9])],
    matches it at the start of the string, raises [ValueError] when text
    remains after the match, and raises [ValueError] again when the three
    numbers are not a date of the calendar.  The model reads ASCII digits. *)

Definition is_digit (c : ascii) : bool :=
  let n := nat_of_ascii c in ((48 <=? n) && (n <=? 57))%nat.

Definition digit_value (c : ascii) : Z := Z.of_nat (nat_of_ascii c) - 48.

(** A digit between [lo] and [hi]. *)
Definition digit_in (lo hi : Z) (c : ascii) : bool :=
  is_digit c && (lo <=? digit_value c) && (digit_value c <=? hi).

Definition is_char (c d : ascii) : bool := Ascii.eqb c d.

(** One alternative of two characters, and one of a single character; each
    returns the number read and the rest of the input. *)
Definition two_chars (p1 p2 : ascii -> bool) (s : list ascii)
  : option (Z * list ascii) :=
  match s with
  | c1 :: c2 :: rest =>
      if p1 c1 && p2 c2 then
        Some ((if is_digit c1 then 10 * digit_value c1 else 0) + digit_value c2,
              rest)
      else None
  | _ => None
  end.

Definition one_char (p : ascii -> bool) (s : list ascii)
  : option (Z * list ascii) :=
  match s with
  | c :: rest => if p c then Some (digit_value c, rest) else None
  | [] => None
  end.

(** The first alternative, in order, that matches and is accepted by [next]. *)
Fixpoint first_match {R} (alts : list (list ascii -> option (Z * list ascii)))
    (next : Z -> list ascii -> option R) (s : list ascii) : option R :=
  match alts with
  | [] => None
  | alt :: others =>
      match alt s with
      | Some (n, rest) =>
          match next n rest with
          | Some r => Some r
          | None => first_match others next s
          end
      | None => first_match others next s
      end
  end.

Definition month_alternatives : list (list ascii -> option (Z * list ascii)) :=
  [ two_chars (is_char "1") (digit_in 0 2);
    two_chars (is_char "0") (digit_in 1 9);
    one_char (digit_in 1 9) ].

Definition day_alternatives : list (list ascii -> option (Z * list ascii)) :=
  [ two_chars (is_char "3") (digit_in 0 1);
    two_chars (digit_in 1 2) is_digit;
    two_chars (is_char "0") (digit_in 1 9);
    one_char (digit_in 1 9);
    two_chars (is_char " ") (digit_in 1 9) ].

Definition expect_dash {R} (next : list ascii -> option R) (s : list ascii)
  : option R :=
  match s with
  | c :: rest => if is_char "-" c then next rest else None
  | [] => None
  end.

(** The match of the regular expression: year, month, day and the text left
    over after the day. *)
Definition match_Ymd (s : list ascii) : option (Z * Z * Z * list ascii) :=
  match s with
  | y1 :: y2 :: y3 :: y4 :: rest =>
      if is_digit y1 && is_digit y2 && is_digit y3 && is_digit y4 then
        let year := 1000 * digit_value y1 + 100 * digit_value y2
                    + 10 * digit_value y3 + digit_value y4 in
        expect_dash
          (first_match month_alternatives
             (fun month => expect_dash
                (first_match day_alternatives
                   (fun day left => Some (year, month, day, left)))))
          rest
      else None
  | _ => None
  end.

Definition is_leap (year : Z) : bool :=
  (year mod 4 =? 0) && (negb (year mod 100 =? 0) || (year mod 400 =? 0)).

Definition days_in_month (year month : Z) : Z :=
  if month =? 2 then (if is_leap year then 29 else 28)
  else if (month =? 4) || (month =? 6) || (month =? 9) || (month =? 11) then 30
  else 31.

Definition strptime_Ymd (date_string : string) : result (Z * Z * Z) :=
  match match_Ymd (list_ascii_of_string date_string) with
  | Some (year, month, day, []) =>
      if (1 <=? year) && (1 <=? day) && (day <=? days_in_month year month)
      then Ok (year, month, day)
      else Raise ValueError
  | Some (_, _, _, _ :: _) => Raise ValueError
  | None => Raise ValueError
  end.

(** The pattern the tool schema declares for [date]:
    [^\d{4}-\d{2}-\d{2}$]. *)
Definition matches_YYYY_MM_DD (date_string : string) : bool :=
  match list_ascii_of_string date_string with
  | [y1; y2; y3; y4; s1; m1; m2; s2; d1; d2] =>
      is_digit y1 && is_digit y2 && is_digit y3 && is_digit y4
      && is_char "-" s1 && is_digit m1 && is_digit m2
      && is_char "-" s2 && is_digit d1 && is_digit d2
  | _ => false
  end.

(** ** The upstream payload and the transport *)

(** One reading of [attributes.values]. *)
Record reading : Type := {
  datetime : string;
  value : Q
}.

(** One entry of [included], read the way the code reads it:
    [item.get("type")], [item.get("id")] and
    [item.get("attributes", {}).get("values")]. *)
Record item : Type := {
  item_type : option string;
  item_id : option string;
  item_values : option (list reading)
}.

(** The decoded body: [data.get("included")]. *)
Record payload : Type := {
  included : option (list item)
}.

Record http_request : Type := {
  url : string;
  params : list (string * string);
  headers : list (string * string)
}.

(** What [client.get] can do: raise one of the two transport exceptions the
    code handles, or return a response with its status and decoded body. *)
Inductive http_outcome : Type :=
| TimeoutException
| RequestError (text : string)
| Response (status_code : Z) (data : payload).

(** ** Results of the two tools *)

Record ChargingRecommendation : Type := {
  recommended_hours : list string;
  average_price_eur_kwh : pyfloat;
  total_cost_eur : pyfloat;
  explanation : string;
  query_date : string
}.

Record HourlyPrice : Type := {
  hour : string;
  price_eur_kwh : Q
}.

Record PVPCData : Type := {
  date : string;
  hourly_prices : list HourlyPrice;
  min_price : Q;
  max_price : Q;
  average_price : Q
}.

(** ** Asynchronous methods: results with a log of the requests sent *)

Definition io (T : Type) : Type :=
  list http_request -> result T * list http_request.

Definition io_ret {T} (a : T) : io T := fun log => (Ok a, log).

Definition io_raise {T} (e : exn) : io T := fun log => (Raise e, log).

Definition io_lift {T} (r : result T) : io T := fun log => (r, log).

Definition io_bind {T U} (m : io T) (k : T -> io U) : io U :=
  fun log =>
    match m log with
    | (Ok a, log') => k a log'
    | (Raise e, log') => (Raise e, log')
    end.

Declare Scope io_scope.
Delimit Scope io_scope with io.
Notation "x <- m ;; k" := (io_bind m (fun x => k))
  (at level 61, m at next level, right associativity) : io_scope.
Notation "' pat <- m ;; k" := (io_bind m (fun x => match x with pat => k end))
  (at level 61, pat pattern, m at next level, right associativity) : io_scope.

Definition REE_BASE_URL : string := "https://apidatos.ree.es/es/datos".

Definition INVALID_DATE : string := "Invalid date format. Use YYYY-MM-DD".

Definition no_price_data (date : string) : string :=
  ("No price data available for date " ++ date)%string.

Definition no_pvpc_data (date : string) : string :=
  ("No PVPC data available for date " ++ date)%string.

(** [item.get("type") == "PVPC" or "PVPC" in item.get("id", "")] *)
Definition is_pvpc_item (it : item) : bool :=
  match item_type it with
  | Some t => String.eqb t "PVPC"
  | None => false
  end
  || str_contains "PVPC" match item_id it with
                         | Some i => i
                         | None => ""%string
                         end.

(** [s.replace("Z", "+00:00")] *)
Fixpoint replace_Z (s : string) : string :=
  match s with
  | EmptyString => EmptyString
  | String c rest =>
      if is_char "Z" c then ("+00:00" ++ replace_Z rest)%string
      else String c (replace_Z rest)
  end.

(** [prices.sort(key=lambda x: x[0])]: a stable sort on the hour. *)
Fixpoint insert_by_hour (x : Z * Q) (sorted : list (Z * Q)) : list (Z * Q) :=
  match sorted with
  | [] => [x]
  | y :: rest =>
      if fst x <=? fst y then x :: y :: rest
      else y :: insert_by_hour x rest
  end.

Definition sort_by_hour (prices : list (Z * Q)) : list (Z * Q) :=
  fold_right insert_by_hour [] prices.

(** [f"{x:.nf}"]: the sign, then the magnitude rounded to [n] decimals. *)
Definition pad_zeros (width : nat) (digits : string) : string :=
  (string_of_list_ascii (repeat "0"%char (width - String.length digits))
   ++ digits)%string.

Definition format_f (n : nat) (x : pyfloat) : string :=
  match x with
  | Fin q =>
      let scaled := round_half_even (Qabs q * pow10 n) in
      let unit := 10 ^ Z.of_nat n in
      ((if Qltb q 0 then "-" else "")
       ++ str_int (scaled / unit)
       ++ (if (n =? 0)%nat then "" else "." ++ pad_zeros n (str_int (scaled mod unit))))%string
  | PInf => "inf"%string
  | NInf => "-inf"%string
  | NaN => "nan"%string
  end.

(** The explanation of a recommendation; [str_float] renders [{kwh}]. *)
Definition make_explanation (str_float : Q -> string)
    (best_hours : list Z) (formatted_hours : list string)
    (kwh : Q) (total_cost avg_price : pyfloat) : result string :=
  if Py.len best_hours =? 1 then
    (first <- Py.first formatted_hours ;;
     Ok ("Recommended charging time: " ++ first ++ ". "
         ++ "With " ++ str_float kwh ++ " kWh consumption, cost will be "
         ++ format_f 2%nat total_cost ++ EURO ++ " "
         ++ "(price: " ++ format_f 4%nat avg_price ++ EURO ++ "/kWh).")%string
    )%result
  else
    (start_time <- Py.first formatted_hours ;;
     last_hour <- Py.last best_hours ;;
     let end_time := (format_02d (last_hour + 1) ++ ":00")%string in
     Ok ("Recommended charging period: " ++ start_time ++ " to " ++ end_time
         ++ ". "
         ++ "With " ++ str_float kwh ++ " kWh consumption, cost will be "
         ++ format_f 2%nat total_cost ++ EURO ++ " "
         ++ "(average price: " ++ format_f 4%nat avg_price ++ EURO
         ++ "/kWh).")%string
    )%result.

Section Advisor.

(** The arithmetic of floats. *)
Context {A : arithmetic}.

(** The transport: what the grid operator answers to a request. *)
Variable http_get : http_request -> http_outcome.

(** [datetime.now().strftime("%Y-%m-%d")]: the local date of the caller. *)
Variable today : string.

(** [datetime.fromisoformat(s).hour], or the [ValueError] it raises. *)
Variable fromisoformat_hour : string -> result Z.

(** [str(x)] on a float, as [f"{kwh}"] renders it. *)
Variable str_float : Q -> string.

(** [await client.get(url, params=params, headers=headers)] *)
Definition client_get (request : http_request) : io http_outcome :=
  fun log => (Ok (http_get request), log ++ [request]).

Definition get_pvpc_prices (date : string) : io item :=
  let start_date := (date ++ "T00:00")%string in
  let end_date := (date ++ "T23:59")%string in
  let url := (REE_BASE_URL ++ "/mercados/precios-mercados-tiempo-real")%string in
  let params := [ ("start_date", start_date); ("end_date", end_date);
                  ("time_trunc", "hour") ]%string in
  let headers := [ ("Accept", "application/json");
                   ("Content-Type", "application/json") ]%string in
  (outcome <- client_get {| url := url; params := params; headers := headers |} ;;
   match outcome with
   | TimeoutException => io_raise (create_error "Timeout querying REE API")
   | RequestError e =>
       io_raise (create_error ("Connection error with REE API: " ++ e)%string)
   | Response status_code data =>
       if status_code =? 404 then
         io_raise (create_error (no_price_data date))
       else if negb (status_code =? 200) then
         io_raise (create_error ("REE API error: " ++ str_int status_code)%string)
       else
         match included data with
         | None | Some [] => io_raise (create_error (no_price_data date))
         | Some items =>
             match find is_pvpc_item items with
             | None => io_raise (create_error (no_pvpc_data date))
             | Some pvpc_data =>
                 match item_values pvpc_data with
                 | None | Some [] => io_raise (create_error (no_pvpc_data date))
                 | Some _ => io_ret pvpc_data
                 end
             end
         end
   end)%io.

(** The body of the loop of [parse_hourly_prices]. *)
Definition parse_reading (prices : list (Z * Q)) (v : reading)
  : result (list (Z * Q)) :=
  (hour <- fromisoformat_hour (replace_Z (datetime v)) ;;
   let price_mwh := fl (value v) in
   let price_kwh := fl (price_mwh / 1000)%Q in
   Ok (prices ++ [(hour, price_kwh)]))%result.

Definition parse_hourly_prices (data : item) : result (list (Z * Q)) :=
  (values <- match item_values data with
             | Some vs => Ok vs
             | None => Raise KeyError
             end ;;
   prices <- for_each parse_reading values [] ;;
   Ok (sort_by_hour prices))%result.

(** [date] defaulted and validated, as both tools do it first. *)
Definition checked_date (date : option string) : result string :=
  let date := match date with
              | Some d => d
              | None => today
              end in
  match strptime_Ymd date with
  | Ok _ => Ok date
  | Raise _ => Raise (create_error INVALID_DATE)
  end.

Definition get_best_charging_hours (date : option string)
    (start_hour end_hour : Z) (kwh : Q) : io ChargingRecommendation :=
  (date <- io_lift (checked_date date) ;;
   pvpc_data <- get_pvpc_prices date ;;
   hourly_prices <- io_lift (parse_hourly_prices pvpc_data) ;;
   let hour_range := generate_hour_range start_hour end_hour in
   ' (best_hours, avg_price) <-
       io_lift (find_best_consecutive_hours hourly_prices hour_range kwh) ;;
   let formatted_hours := map format_hour best_hours in
   let total_cost := float_mul_fin kwh avg_price in
   explanation <-
     io_lift (make_explanation str_float best_hours formatted_hours
                kwh total_cost avg_price) ;;
   io_ret {| recommended_hours := formatted_hours;
             average_price_eur_kwh := py_round_float avg_price 4;
             total_cost_eur := py_round_float total_cost 2;
             explanation := explanation;
             query_date := date |})%io.

Definition get_current_pvpc_prices (date : option string) : io PVPCData :=
  (date <- io_lift (checked_date date) ;;
   pvpc_data <- get_pvpc_prices date ;;
   hourly_prices <- io_lift (parse_hourly_prices pvpc_data) ;;
   let price_list :=
     map (fun hp => {| hour := format_hour (fst hp);
                       price_eur_kwh := py_round (snd hp) 4 |})
         hourly_prices in
   let prices_only := map snd hourly_prices in
   lowest <- io_lift (py_min prices_only) ;;
   highest <- io_lift (py_max prices_only) ;;
   mean <- io_lift (Py.truediv (Py.sum prices_only) (Py.len prices_only)) ;;
   io_ret {| date := date;
             hourly_prices := price_list;
             min_price := py_round lowest 4;
             max_price := py_round highest 4;
             average_price := py_round mean 4 |})%io.

End Advisor.

(** ** The gateway: [list_tools] and [call_tool] *)

(** [ChargingTools] *)
Definition GET_BEST_CHARGING_HOURS : string := "get_best_charging_hours".

Definition GET_CURRENT_PVPC_PRICES : string := "get_current_pvpc_prices".

(** One property of an input schema. *)
Record property_schema : Type := {
  property_type : string;
  property_description : string;
  pattern : option string;
  minimum : option Q;
  maximum : option Q
}.

(** A [Tool]: its name, its description, and the properties and the required
    keys of its input schema. *)
Record Tool : Type := {
  tool_name : string;
  tool_description : string;
  properties : list (string * property_schema);
  required : list string
}.

Definition DATE_PATTERN : string := "^\d{4}-\d{2}-\d{2}$".

Definition date_property : string * property_schema :=
  ("date"%string,
   {| property_type := "string";
      property_description := "Date in YYYY-MM-DD format (default: today)";
      pattern := Some DATE_PATTERN;
      minimum := None;
      maximum := None |}).

Definition list_tools : list Tool :=
  [ {| tool_name := GET_BEST_CHARGING_HOURS;
       tool_description :=
         "Get best hours to charge electric car based on Spanish PVPC electricity prices";
       properties :=
         [ date_property;
           ("start_hour"%string,
            {| property_type := "integer";
               property_description :=
                 "Start hour for charging window (0-23, default: 22)";
               pattern := None;
               minimum := Some 0%Q;
               maximum := Some 23%Q |});
           ("end_hour"%string,
            {| property_type := "integer";
               property_description :=
                 "End hour for charging window (0-23, can be < start_hour for midnight crossing, default: 7)";
               pattern := None;
               minimum := Some 0%Q;
               maximum := Some 23%Q |});
           ("kwh"%string,
            {| property_type := "number";
               property_description :=
                 "Estimated consumption in kWh (default: 10.0)";
               pattern := None;
               minimum := Some 0.1%Q;
               maximum := Some 100.0%Q |}) ];
       required := [] |};
    {| tool_name := GET_CURRENT_PVPC_PRICES;
       tool_description :=
         "Get current Spanish PVPC electricity prices for a specific date";
       properties := [ date_property ];
       required := [] |} ].

(** The arguments of a call, each key as [arguments.get(key)] finds it. *)
Record tool_arguments : Type := {
  arg_date : option string;
  arg_start_hour : option Z;
  arg_end_hour : option Z;
  arg_kwh : option Q
}.

(** [arguments.get(key, default)] *)
Definition get_or {T} (found : option T) (default : T) : T :=
  match found with
  | Some v => v
  | None => default
  end.

Definition ERROR_PREFIX : string := "Error in charging advisor: ".

Section Gateway.

Context {A : arithmetic}.

Variable http_get : http_request -> http_outcome.
Variable today : string.
Variable fromisoformat_hour : string -> result Z.
Variable str_float : Q -> string.

(** [json.dumps(result.model_dump(), indent=2, ensure_ascii=False)] on the
    two kinds of result. *)
Variable dumps_recommendation : ChargingRecommendation -> string.
Variable dumps_prices : PVPCData -> string.

(** [str(e)] on an exception of the interpreter. *)
Variable str_builtin : exn -> string.

(** [str(e)]: an [McpError] prints as its message. *)
Definition str_exn (e : exn) : string :=
  match e with
  | McpError message => message
  | other => str_builtin other
  end.

(** The [match name] of [call_tool]. *)
Definition dispatch (name : string) (arguments : tool_arguments) : io string :=
  if String.eqb name GET_BEST_CHARGING_HOURS then
    (result <- get_best_charging_hours http_get today fromisoformat_hour
                 str_float (arg_date arguments)
                 (get_or (arg_start_hour arguments) 22)
                 (get_or (arg_end_hour arguments) 7)
                 (get_or (arg_kwh arguments) (fl 10)) ;;
     io_ret (dumps_recommendation result))%io
  else if String.eqb name GET_CURRENT_PVPC_PRICES then
    (result <- get_current_pvpc_prices http_get today fromisoformat_hour
                 (arg_date arguments) ;;
     io_ret (dumps_prices result))%io
  else
    io_raise (create_error ("Unknown tool: " ++ name)%string).

(** [call_tool]: the texts returned, and the log of the requests sent. *)
Definition call_tool (name : string) (arguments : tool_arguments)
    (log : list http_request) : list string * list http_request :=
  match dispatch name arguments log with
  | (Ok text, log') => ([text], log')
  | (Raise e, log') => ([(ERROR_PREFIX ++ str_exn e)%string], log')
  end.

End Gateway.

(** ** A sample environment

    A transport that answers every request with one fixed body, and the
    renderings the examples need. *)

Module Sample.

(** The hour of a timestamp [YYYY-MM-DDTHH:MM:SS.fff+HH:MM], the form in
    which the operator publishes them. *)
Definition hour_of_timestamp (s : string) : result Z :=
  match skipn 11 (list_ascii_of_string s) with
  | h1 :: h2 :: _ =>
      if is_digit h1 && is_digit h2
      then Ok (10 * digit_value h1 + digit_value h2)
      else Raise ValueError
  | _ => Raise ValueError
  end.

Definition timestamp (h : Z) : string :=
  ("2024-01-15T" ++ format_02d h ++ ":00:00.000+01:00")%string.

(** The readings that publish [prices], in currency per megawatt-hour. *)
Definition readings_of (prices : list (Z * Q)) : list reading :=
  map (fun hp => {| datetime := timestamp (fst hp);
                    value := (snd hp * 1000)%Q |}) prices.

Definition pvpc_item (prices : list (Z * Q)) : item :=
  {| item_type := Some "PVPC"%string;
     item_id := Some "1001"%string;
     item_values := Some (readings_of prices) |}.

Definition spot_item : item :=
  {| item_type := Some "Precio mercado spot"%string;
     item_id := Some "600"%string;
     item_values := Some (readings_of [(0, 0.07%Q)]) |}.

(** A transport that answers 200 with the given entries. *)
Definition transport (entries : list item) : http_request -> http_outcome :=
  fun _ => Response 200 {| included := Some entries |}.

Definition today : string := "2024-01-15".

(** A rendering of [{kwh}] with one decimal. *)
Definition show_float (q : Q) : string := format_f 1 (Fin q).

Definition best_hours {A : arithmetic} (entries : list item)
    (date : option string)
    (start_hour end_hour : Z) (kwh : Q) : io ChargingRecommendation :=
  get_best_charging_hours (transport entries) today hour_of_timestamp
    show_float date start_hour end_hour kwh.

Definition current_prices {A : arithmetic} (entries : list item)
    (date : option string) : io PVPCData :=
  get_current_pvpc_prices (transport entries) today hour_of_timestamp date.

(** The gateway on the sample transport; a result is printed as its
    explanation or as its date, an exception of the interpreter as a fixed
    word. *)
Definition call {A : arithmetic} (entries : list item) (name : string)
    (arguments : tool_arguments) (log : list http_request)
  : list string * list http_request :=
  call_tool (transport entries) today hour_of_timestamp show_float
    explanation date (fun _ => "exception"%string) name arguments log.

Definition no_arguments : tool_arguments :=
  {| arg_date := None; arg_start_hour := None; arg_end_hour := None;
     arg_kwh := None |}.

End Sample.

(** ** Vocabulary of the specification *)

(** The arithmetic mean of a list of prices. *)
Definition arith_mean (xs : list Q) : Q :=
  (fold_right Qplus 0 xs / inject_Z (Z.of_nat (List.length xs)))%Q.

(** The mean price of a run of [(hour, price)] pairs. *)
Definition mean_price (w : list (Z * Q)) : Q := arith_mean (map snd w).


(** The mean price of a run, as an arithmetic computes it. *)
Definition window_mean {A : arithmetic} (w : list (Z * Q)) : Q :=
  fl (fsum (map snd w) / inject_Z (Py.len w))%Q.

(** The mean of window [i], as the loop computes it. *)
Definition avg_at {A : arithmetic} (filtered_prices : list (Z * Q)) (n i : Z)
  : Q :=
  window_mean (window_at filtered_prices n i).

(** What the search loop has established once the windows [0 .. a-1] have
    been visited: nothing yet, or the best window so far. *)
Definition search_inv {A : arithmetic} (filtered_prices : list (Z * Q))
    (n a : Z) (best : pyfloat * list Z) : Prop :=
  (a = 0 /\ best = (PInf, []))
  \/ exists i,
      0 <= i < a
      /\ best = (Fin (avg_at filtered_prices n i),
                 map fst (window_at filtered_prices n i))
      /\ (forall j, 0 <= j < a ->
                    (avg_at filtered_prices n i <= avg_at filtered_prices n j)%Q)
      /\ (forall j, 0 <= j < i ->
                    (avg_at filtered_prices n i < avg_at filtered_prices n j)%Q).

(** A series in ascending order of the hour. *)
Definition ascending_hours (series : list (Z * Q)) : Prop :=
  StronglySorted (fun a b => fst a <= fst b) series.

(** The series of the scenario in the order the parser delivers it. *)
Definition scenario_sorted : list (Z * Q) := sort_by_hour scenario_prices.

(** A series of decimal prices as the floats of an arithmetic. *)
Definition as_floats {A : arithmetic} (series : list (Z * Q)) : list (Z * Q) :=
  map (fun hp => (fst hp, fl (snd hp))) series.

(** The arithmetics in which the examples are run. *)
Definition arithmetics : list arithmetic :=
  [exact; binary64; binary64_compensated].

(** The typed errors of the specification, as the messages that tell them
    apart in the code. *)
Definition InvalidDateError : exn := McpError INVALID_DATE.

Definition NoPricesInRangeError : exn := McpError NO_PRICES_IN_RANGE.

Definition NoDataError (e : exn) : Prop :=
  exists date, e = McpError (no_price_data date) \/ e = McpError (no_pvpc_data date).

(** The request [get_pvpc_prices] sends for a date. *)
Definition price_request (date : string) : http_request :=
  {| url := (REE_BASE_URL ++ "/mercados/precios-mercados-tiempo-real")%string;
     params := [ ("start_date", date ++ "T00:00"); ("end_date", date ++ "T23:59");
                 ("time_trunc", "hour") ]%string;
     headers := [ ("Accept", "application/json");
                  ("Content-Type", "application/json") ]%string |}.

(** The rule of selection as the specification words it: the marker occurs
    in the type or in the identifier. *)
Definition marker_in_type_or_id (it : item) : bool :=
  str_contains "PVPC" match item_type it with Some t => t | None => ""%string end
  || str_contains "PVPC" match item_id it with Some i => i | None => ""%string end.

(** The rule of selection of the code: the type is the marker, or the marker
    occurs in the identifier. *)
Definition pvpc_entry (it : item) : Prop :=
  item_type it = Some "PVPC"%string
  \/ exists i before after,
      item_id it = Some i /\ i = (before ++ "PVPC" ++ after)%string.

(** A day whose 24 hours are all published at 0.45 per MWh; the prices are
    per kWh, as [Sample.readings_of] takes them. *)
Definition flat_day : list (Z * Q) :=
  map (fun h => (h, 0.00045%Q)) (Py.range 0 24).

(** An entry whose type holds the marker without being the marker. *)
Definition labelled_item : item :=
  {| item_type := Some "PVPC (EUR/MWh)"%string;
     item_id := Some "1001"%string;
     item_values := Some (Sample.readings_of scenario_prices) |}.

(** [d.strftime("%Y-%m-%d")] on a date with a year of four digits. *)
Definition strftime_Ymd (year month day : Z) : string :=
  (str_int year ++ "-" ++ format_02d month ++ "-" ++ format_02d day)%string.

(** The digits of the years from 1000 to 9999 read back as the year. *)
Definition year_reads_back (year : Z) : bool :=
  match list_ascii_of_string (str_int year) with
  | [y1; y2; y3; y4] =>
      is_digit y1 && is_digit y2 && is_digit y3 && is_digit y4
      && (1000 * digit_value y1 + 100 * digit_value y2
          + 10 * digit_value y3 + digit_value y4 =? year)
  | _ => false
  end.

(** A value that the input schema of [get_best_charging_hours] admits for a
    numeric key: it lies between the minimum and the maximum declared. *)
Definition admitted (key : string) (x : Q) : Prop :=
  exists tool p lo hi,
    In tool list_tools
    /\ tool_name tool = GET_BEST_CHARGING_HOURS
    /\ In (key, p) (properties tool)
    /\ minimum p = Some lo /\ maximum p = Some hi
    /\ (lo <= x <= hi)%Q.

(** * Properties *)

(** ** [range] and slices *)

Lemma range_len (a b : Z) : Py.len (Py.range a b) = Z.max 0 (b - a).
Proof.
  unfold Py.len, Py.range. rewrite length_map, length_seq. lia.
Qed.

Lemma range_nth (a b k : Z) :
  0 <= k < b - a -> nth_error (Py.range a b) (Z.to_nat k) = Some (a + k).
Proof.
  intros Hk. unfold Py.range.
  rewrite nth_error_map, nth_error_seq.
  destruct (Nat.ltb_spec (Z.to_nat k) (Z.to_nat (b - a))) as [_ | Hge]; [| lia].
  cbn. f_equal. lia.
Qed.

Lemma range_In (a b x : Z) : In x (Py.range a b) <-> a <= x < b.
Proof.
  unfold Py.range. rewrite in_map_iff. split.
  - intros [k [<- Hk]]. apply in_seq in Hk. lia.
  - intros Hx. exists (Z.to_nat (x - a)). split; [lia |].
    apply in_seq. lia.
Qed.

Lemma range_cons (a b : Z) :
  a < b -> Py.range a b = a :: Py.range (a + 1) b.
Proof.
  intros Hab. unfold Py.range.
  replace (Z.to_nat (b - a)) with (S (Z.to_nat (b - (a + 1)))) by lia.
  cbn [seq map]. f_equal; [lia |].
  rewrite <- seq_shift, map_map. apply map_ext. intros k. lia.
Qed.

(** ** C4: the hour range *)

(** C4. For start and end in 0..23: when start <= end the range is the
    integers start, start+1, ..., end in this order; when start > end it is
    start..23 followed by 0..end, of length (24-start)+(end+1); in both cases
    start and end are members and the range is not empty. *)
Theorem generate_hour_range_spec (start end_ : Z) :
  0 <= start <= 23 -> 0 <= end_ <= 23 ->
  let hours := generate_hour_range start end_ in
  (start <= end_ ->
     Py.len hours = end_ - start + 1
     /\ forall k, 0 <= k <= end_ - start ->
                  nth_error hours (Z.to_nat k) = Some (start + k))
  /\ (start > end_ ->
       Py.len hours = (24 - start) + (end_ + 1)
       /\ (forall k, 0 <= k <= 23 - start ->
                     nth_error hours (Z.to_nat k) = Some (start + k))
       /\ (forall k, 0 <= k <= end_ ->
                     nth_error hours (Z.to_nat (24 - start + k)) = Some k))
  /\ In start hours /\ In end_ hours /\ hours <> [].
Proof.
  intros Hs He hours. subst hours. unfold generate_hour_range.
  destruct (Z.leb_spec start end_) as [Hle | Hgt].
  - repeat split; try lia.
    + rewrite range_len. lia.
    + intros k Hk. apply range_nth. lia.
    + apply range_In. lia.
    + apply range_In. lia.
    + rewrite (range_cons start) by lia. discriminate.
  - assert (Hlen1 : List.length (Py.range start 24) = Z.to_nat (24 - start)).
    { pose proof (range_len start 24) as H. unfold Py.len in H. lia. }
    repeat split; try lia.
    + unfold Py.len. rewrite length_app.
      pose proof (range_len start 24) as H1.
      pose proof (range_len 0 (end_ + 1)) as H2.
      unfold Py.len in H1, H2. lia.
    + intros k Hk. rewrite nth_error_app1 by lia. apply range_nth. lia.
    + intros k Hk. rewrite nth_error_app2 by lia.
      replace (Z.to_nat (24 - start + k) - List.length (Py.range start 24))%nat
        with (Z.to_nat k) by lia.
      rewrite range_nth by lia. f_equal.
    + apply in_or_app. left. apply range_In. lia.
    + apply in_or_app. right. apply range_In. lia.
    + rewrite (range_cons start) by lia. discriminate.
Qed.

Lemma generate_hour_range_spec_witness :
  0 <= 22 <= 23 /\ 0 <= 7 <= 23
  /\ Py.len (generate_hour_range 22 7) = (24 - 22) + (7 + 1)
  /\ In 22 (generate_hour_range 22 7) /\ In 7 (generate_hour_range 22 7)
  /\ generate_hour_range 22 7 = [22; 23; 0; 1; 2; 3; 4; 5; 6; 7]
  /\ generate_hour_range 5 5 = [5].
Proof.
  assert (Hs : 0 <= 22 <= 23) by lia.
  assert (He : 0 <= 7 <= 23) by lia.
  destruct (generate_hour_range_spec 22 7 Hs He)
    as (_ & Hwrap & Hstart & Hend & _).
  destruct (Hwrap ltac:(lia)) as (Hlen & _).
  repeat split; try lia; try assumption; reflexivity.
Defined.

(** ** Order on the rationals, as the program tests it *)

Lemma Qltb_lt (a b : Q) : Qltb a b = true <-> (a < b)%Q.
Proof.
  unfold Qltb. rewrite negb_true_iff. split.
  - intros H. apply Qnot_le_lt. intros Hle.
    apply Qle_bool_iff in Hle. congruence.
  - intros H. destruct (Qle_bool b a) eqn:E; [| reflexivity].
    apply Qle_bool_iff in E. exfalso. apply (Qlt_not_le _ _ H E).
Qed.

Lemma Qltb_ge (a b : Q) : Qltb a b = false <-> (b <= a)%Q.
Proof.
  unfold Qltb. rewrite negb_false_iff. apply Qle_bool_iff.
Qed.

(** ** Sums and means *)

Lemma sum_from (xs : list Q) (acc : Q) :
  (fold_left Qplus xs acc == acc + fold_right Qplus 0 xs)%Q.
Proof.
  revert acc. induction xs as [| x xs IH]; intros acc; cbn [fold_left fold_right].
  - ring.
  - rewrite IH. ring.
Qed.



Section Search.

Context {A : arithmetic}.

(** ** Windows *)

Lemma slice_len {T} (l : list T) (i n : Z) :
  0 <= i -> 0 <= n -> i + n <= Py.len l -> Py.len (Py.slice l i (i + n)) = n.
Proof.
  intros Hi Hn Hle. unfold Py.len, Py.slice in *.
  rewrite length_firstn, length_skipn. lia.
Qed.



Lemma window_at_len (filtered_prices : list (Z * Q)) (n i : Z) :
  0 <= i -> 0 <= n -> i + n <= Py.len filtered_prices ->
  Py.len (window_at filtered_prices n i) = n.
Proof. apply slice_len. Qed.

Lemma window_avg_ok (filtered_prices : list (Z * Q)) (n i : Z) :
  0 <= i -> 1 <= n -> i + n <= Py.len filtered_prices ->
  window_avg (window_at filtered_prices n i) = Ok (avg_at filtered_prices n i).
Proof.
  intros Hi Hn Hle. unfold window_avg, Py.truediv, avg_at, window_mean, Py.sum.
  rewrite window_at_len by lia.
  destruct (Z.eqb_spec n 0); [lia | reflexivity].
Qed.

(** ** The required number of hours *)

Lemma clamp_hours_min (h : Z) (filtered_prices : list (Z * Q)) :
  clamp_hours h filtered_prices = Z.min h (Py.len filtered_prices).
Proof.
  unfold clamp_hours. destruct (Z.gtb_spec h (Py.len filtered_prices)); lia.
Qed.

Lemma hours_needed_ge_1 (kwh : Q) : 1 <= hours_needed_of kwh.
Proof. unfold hours_needed_of. lia. Qed.

Lemma clamp_hours_bounds (kwh : Q) (filtered_prices : list (Z * Q)) :
  filtered_prices <> [] ->
  1 <= clamp_hours (hours_needed_of kwh) filtered_prices
    <= Py.len filtered_prices.
Proof.
  intros Hne. rewrite clamp_hours_min.
  pose proof (hours_needed_ge_1 kwh).
  assert (1 <= Py.len filtered_prices).
  { destruct filtered_prices; [congruence |]. unfold Py.len. cbn. lia. }
  lia.
Qed.


(** ** The search loop *)

Lemma search_step_inv (filtered_prices : list (Z * Q)) (n a : Z)
    (best : pyfloat * list Z) :
  0 <= a -> 1 <= n -> a + n <= Py.len filtered_prices ->
  search_inv filtered_prices n a best ->
  exists best',
    search_step filtered_prices n best a = Ok best'
    /\ search_inv filtered_prices n (a + 1) best'.
Proof.
  intros Ha Hn Hle Hinv. unfold search_step.
  rewrite window_avg_ok by lia. cbn [rbind].
  destruct Hinv as [[-> ->] | (i & Hi & -> & Hmin & Hfirst)]; cbn [fst float_lt].
  - eexists. split; [reflexivity |]. right. exists 0.
    repeat split; try lia.
    + intros j Hj. replace j with 0 by lia. apply Qle_refl.
  - destruct (Qltb (avg_at filtered_prices n a) (avg_at filtered_prices n i))
      eqn:Hcmp.
    + apply Qltb_lt in Hcmp.
      eexists. split; [reflexivity |]. right. exists a.
      repeat split; try lia.
      * intros j Hj. destruct (Z.eq_dec j a) as [-> | Hne]; [apply Qle_refl |].
        apply Qlt_le_weak. eapply Qlt_le_trans; [exact Hcmp |].
        apply Hmin. lia.
      * intros j Hj. eapply Qlt_le_trans; [exact Hcmp |]. apply Hmin. lia.
    + apply Qltb_ge in Hcmp.
      eexists. split; [reflexivity |]. right. exists i.
      repeat split; try lia.
      * intros j Hj. destruct (Z.eq_dec j a) as [-> | Hne]; [exact Hcmp |].
        apply Hmin. lia.
      * exact Hfirst.
Qed.

Lemma search_loop_inv (filtered_prices : list (Z * Q)) (n : Z) (k : nat) :
  forall (a : Z) (best : pyfloat * list Z),
    0 <= a -> 1 <= n -> a + Z.of_nat k + n <= Py.len filtered_prices + 1 ->
    search_inv filtered_prices n a best ->
    exists best',
      for_each (search_step filtered_prices n)
        (Py.range a (a + Z.of_nat k)) best = Ok best'
      /\ search_inv filtered_prices n (a + Z.of_nat k) best'.
Proof.
  induction k as [| k IH]; intros a best Ha Hn Hle Hinv.
  - exists best. unfold Py.range.
    replace (Z.to_nat (a + Z.of_nat 0 - a)) with 0%nat by lia.
    split; [reflexivity |].
    replace (a + Z.of_nat 0) with a by lia. exact Hinv.
  - rewrite range_cons by lia. cbn [for_each].
    destruct (search_step_inv filtered_prices n a best) as (mid & Hstep & Hmid);
      try lia; [exact Hinv |].
    rewrite Hstep. cbn [rbind].
    destruct (IH (a + 1) mid) as (best' & Hloop & Hbest'); try lia;
      [exact Hmid |].
    exists best'.
    replace (a + Z.of_nat (S k)) with (a + 1 + Z.of_nat k) by lia.
    split; assumption.
Qed.

(** The whole search, from the initial [(inf, [])]: it ends on the first
    window of least mean. *)
Lemma search_result (filtered_prices : list (Z * Q)) (n : Z) :
  1 <= n <= Py.len filtered_prices ->
  exists i,
    0 <= i <= Py.len filtered_prices - n
    /\ for_each (search_step filtered_prices n)
         (Py.range 0 (Py.len filtered_prices - n + 1)) (PInf, [])
       = Ok (Fin (avg_at filtered_prices n i),
             map fst (window_at filtered_prices n i))
    /\ (forall j, 0 <= j <= Py.len filtered_prices - n ->
                  (avg_at filtered_prices n i <= avg_at filtered_prices n j)%Q)
    /\ (forall j, 0 <= j < i ->
                  (avg_at filtered_prices n i < avg_at filtered_prices n j)%Q).
Proof.
  intros Hn.
  destruct (search_loop_inv filtered_prices n
              (Z.to_nat (Py.len filtered_prices - n + 1)) 0 (PInf, []))
    as (best & Hloop & Hinv); try lia.
  { left. split; reflexivity. }
  replace (0 + Z.of_nat (Z.to_nat (Py.len filtered_prices - n + 1)))
    with (Py.len filtered_prices - n + 1) in Hloop, Hinv by lia.
  destruct Hinv as [[Hzero _] | (i & Hi & -> & Hmin & Hfirst)]; [lia |].
  exists i. repeat split; try lia.
  - exact Hloop.
  - intros j Hj. apply Hmin. lia.
  - exact Hfirst.
Qed.

(** [find_best_consecutive_hours] in terms of the search. *)
Lemma find_best_unfold (prices : list (Z * Q)) (hour_range : list Z) (kwh : Q) :
  let filtered := filter_prices prices hour_range in
  let n := Z.min (hours_needed_of kwh) (Py.len filtered) in
  filtered <> [] ->
  exists i,
    0 <= i <= Py.len filtered - n
    /\ 1 <= n <= Py.len filtered
    /\ find_best_consecutive_hours prices hour_range kwh
       = Ok (map fst (window_at filtered n i), Fin (avg_at filtered n i))
    /\ (forall j, 0 <= j <= Py.len filtered - n ->
                  (avg_at filtered n i <= avg_at filtered n j)%Q)
    /\ (forall j, 0 <= j < i -> (avg_at filtered n i < avg_at filtered n j)%Q).
Proof.
  intros filtered n Hne.
  pose proof (clamp_hours_bounds kwh filtered Hne) as Hb.
  rewrite clamp_hours_min in Hb. fold n in Hb.
  destruct (search_result filtered n Hb) as (i & Hi & Hloop & Hmin & Hfirst).
  exists i. repeat split; try lia; try assumption.
  unfold find_best_consecutive_hours. fold filtered.
  destruct filtered as [| hp rest] eqn:E; [congruence |].
  rewrite clamp_hours_min. fold n. rewrite Hloop. reflexivity.
Qed.

(** ** The parser delivers the series in ascending order of the hour *)

Lemma insert_by_hour_In (x y : Z * Q) (l : list (Z * Q)) :
  In y (insert_by_hour x l) <-> y = x \/ In y l.
Proof.
  induction l as [| a l IH]; cbn.
  - intuition.
  - destruct (fst x <=? fst a); cbn; [intuition |].
    rewrite IH. intuition.
Qed.

Lemma insert_by_hour_ascending (x : Z * Q) (l : list (Z * Q)) :
  ascending_hours l -> ascending_hours (insert_by_hour x l).
Proof.
  unfold ascending_hours. induction 1 as [| a l Hl IH Hall]; cbn.
  - constructor; constructor.
  - destruct (Z.leb_spec (fst x) (fst a)) as [Hle | Hgt].
    + constructor; [now constructor |].
      constructor; [exact Hle |].
      rewrite Forall_forall in *. intros y Hy. specialize (Hall y Hy). lia.
    + constructor; [exact IH |].
      rewrite Forall_forall in *. intros y Hy.
      apply insert_by_hour_In in Hy. destruct Hy as [-> | Hy]; [lia |].
      now apply Hall.
Qed.

Lemma sort_by_hour_ascending (prices : list (Z * Q)) :
  ascending_hours (sort_by_hour prices).
Proof.
  induction prices as [| x prices IH]; cbn.
  - constructor.
  - now apply insert_by_hour_ascending.
Qed.

Lemma insert_by_hour_perm (x : Z * Q) (l : list (Z * Q)) :
  Permutation (x :: l) (insert_by_hour x l).
Proof.
  induction l as [| a l IH]; cbn; [reflexivity |].
  destruct (fst x <=? fst a); [reflexivity |].
  rewrite perm_swap. now constructor.
Qed.

Lemma sort_by_hour_perm (prices : list (Z * Q)) :
  Permutation prices (sort_by_hour prices).
Proof.
  induction prices as [| x prices IH]; cbn; [constructor |].
  rewrite <- insert_by_hour_perm. now constructor.
Qed.

Lemma parse_hourly_prices_ascending (fromisoformat_hour : string -> result Z)
    (data : item) (prices : list (Z * Q)) :
  parse_hourly_prices fromisoformat_hour data = Ok prices ->
  ascending_hours prices.
Proof.
  unfold parse_hourly_prices. intros H.
  destruct (item_values data) as [values |]; [| discriminate].
  cbn [rbind] in H.
  destruct (for_each (parse_reading fromisoformat_hour) values [])
    as [parsed |]; [| discriminate].
  injection H as <-. apply sort_by_hour_ascending.
Qed.

(** ** C1: the window of least mean, the earliest on a tie *)

Lemma filter_prices_ascending (prices : list (Z * Q)) (hour_range : list Z) :
  ascending_hours prices -> ascending_hours (filter_prices prices hour_range).
Proof.
  unfold ascending_hours, filter_prices.
  induction 1 as [| hp rest Hrest IH Hall]; cbn [filter].
  - constructor.
  - destruct (Py.contains hour_range (fst hp)); [| exact IH].
    constructor; [exact IH |].
    apply Forall_forall. intros x Hx. apply filter_In in Hx.
    rewrite Forall_forall in Hall. apply Hall, Hx.
Qed.

Lemma filter_prices_In (prices : list (Z * Q)) (hour_range : list Z) hp :
  In hp (filter_prices prices hour_range)
  <-> In hp prices /\ In (fst hp) hour_range.
Proof.
  unfold filter_prices, Py.contains. rewrite filter_In, existsb_exists.
  split.
  - intros [Hin [h [Hh Heq]]]. apply Z.eqb_eq in Heq. subst. auto.
  - intros [Hin Hh]. split; [exact Hin |]. exists (fst hp).
    split; [exact Hh | apply Z.eqb_refl].
Qed.


(** ** C2: the required length and its clamp *)



(** ** C10: the search is safe *)


Lemma find_best_empty (prices : list (Z * Q)) (hour_range : list Z) (kwh : Q) :
  filter_prices prices hour_range = [] ->
  find_best_consecutive_hours prices hour_range kwh = Raise NoPricesInRangeError.
Proof.
  intros H. unfold find_best_consecutive_hours. rewrite H. reflexivity.
Qed.

Lemma find_best_ok_nonempty (prices : list (Z * Q)) (hour_range : list Z)
    (kwh : Q) (hours : list Z) (avg : pyfloat) :
  find_best_consecutive_hours prices hour_range kwh = Ok (hours, avg) ->
  hours <> [] /\ exists q, avg = Fin q.
Proof.
  intros Hres.
  assert (Hne : filter_prices prices hour_range <> []).
  { intros Hnil. rewrite (find_best_empty _ _ _ Hnil) in Hres. discriminate. }
  destruct (find_best_unfold prices hour_range kwh Hne)
    as (i & Hi & Hn & Hres' & _).
  rewrite Hres in Hres'. injection Hres' as -> ->.
  split; [| now eexists].
  intros Hnil. apply map_eq_nil in Hnil.
  pose proof (window_at_len (filter_prices prices hour_range)
                (Z.min (hours_needed_of kwh)
                   (Py.len (filter_prices prices hour_range))) i) as Hlen.
  rewrite Hnil in Hlen. cbn in Hlen. lia.
Qed.

End Search.


(** The means compared are the computed ones. The hours 0, 1, 2 and 2, 3, 4
    of this series hold the same three prices; added from the left in
    binary64 the second run comes out one rounding lower and is returned,
    while with the compensated sum, as in exact arithmetic, the two means
    are equal and the first run is returned. *)
Lemma means_are_compared_as_computed :
  let series := [(0, 0.1%Q); (1, 0.2%Q); (2, 0.3%Q); (3, 0.2%Q); (4, 0.1%Q)] in
  let hours := generate_hour_range 0 4 in
  (exists avg,
     find_best_consecutive_hours (A := binary64)
       (as_floats (A := binary64) series) hours (binary64_round 22.2)
     = Ok ([2; 3; 4], Fin avg))
  /\ (exists avg,
        find_best_consecutive_hours (A := binary64_compensated)
          (as_floats (A := binary64) series) hours (binary64_round 22.2)
        = Ok ([0; 1; 2], Fin avg))
  /\ (exists avg,
        find_best_consecutive_hours (A := exact) series hours 22.2
        = Ok ([0; 1; 2], Fin avg)).
Proof.
  repeat split; eexists; vm_compute; reflexivity.
Qed.


(** The quotient is the one the arithmetic computes: 11.1 / 7.4 is 1.5, and
    in binary64 the double just below it. *)
Lemma hours_needed_11_1 :
  hours_needed_of (A := exact) 11.1 = 2
  /\ hours_needed_of (A := binary64) (binary64_round 11.1) = 1
  /\ (binary64_round (binary64_round 11.1 / binary64_round 7.4) < 1.5)%Q.
Proof. repeat split; vm_compute; reflexivity. Qed.


(** ** C3: the scenario of the specification *)

(** C3, as stated, fails. On the series of the scenario, in the order listed
    and in the ascending order the parser delivers, and in each of the three
    arithmetics, the optimizer does not return the hours 0 and 1, whose
    prices 0.30 and 0.05 have mean 0.175. *)
Lemma scenario_window_is_not_0_1 :
  Forall (fun A : arithmetic =>
            forall series avg,
              series = scenario_sorted \/ series = scenario_prices ->
              find_best_consecutive_hours (A := A) (as_floats series)
                (generate_hour_range 22 7) (fl 14.8)
              <> Ok ([0; 1], avg))
         arithmetics
  /\ (mean_price [(0%Z, 0.30); (1%Z, 0.05)] == 0.175)%Q.
Proof.
  split; [| vm_compute; reflexivity].
  unfold arithmetics.
  repeat (apply Forall_cons;
          [intros series avg [-> | ->] H; vm_compute in H; discriminate H |]).
  apply Forall_nil.
Qed.

(** C3, amended. With kwh = 14.8 the required length is 2; the filtered
    sequence is the hours 0..7, 22, 23 in ascending order; the best window is
    the hours 1 and 2, of mean 0.05, and the cost, rounded to 2 decimals, is
    0.74.  The same window is returned when the series is given in the order
    22, 23, 0, ..., 7.  This holds in each of the three arithmetics, the
    numbers 14.8, 0.05 and 0.74 being the floats nearest to them. *)
Theorem scenario_best_window :
  map fst (filter_prices scenario_sorted (generate_hour_range 22 7))
  = [0; 1; 2; 3; 4; 5; 6; 7; 22; 23]
  /\ Forall (fun A : arithmetic =>
               hours_needed_of (A := A) (fl 14.8) = 2
               /\ exists avg cost,
                   (forall series,
                      series = scenario_sorted \/ series = scenario_prices ->
                      find_best_consecutive_hours (A := A) (as_floats series)
                        (generate_hour_range 22 7) (fl 14.8)
                      = Ok ([1; 2], Fin avg))
                   /\ (avg == fl 0.05)%Q
                   /\ py_round_float (float_mul_fin (fl 14.8) (Fin avg)) 2
                      = Fin cost
                   /\ (cost == fl 0.74)%Q)
            arithmetics
  /\ (14.8 * 0.05 == 0.74)%Q.
Proof.
  split; [reflexivity |]. split; [| reflexivity].
  unfold arithmetics.
  repeat (apply Forall_cons;
          [split; [vm_compute; reflexivity |];
           eexists _, _;
           split; [intros series [-> | ->]; vm_compute; reflexivity |];
           split; [vm_compute; reflexivity |];
           split; vm_compute; reflexivity |]).
  apply Forall_nil.
Qed.

(** The scenario through the whole tool, in binary64: the recommendation
    reads 01:00 to 03:00 at 0.05 per kWh, for a cost of 0.74. *)
Lemma scenario_recommendation :
  fst (Sample.best_hours (A := binary64)
         [Sample.spot_item; Sample.pvpc_item scenario_prices]
         (Some "2024-01-15"%string) 22 7 (binary64_round 14.8) [])
  = Ok {| recommended_hours := ["01:00"; "02:00"]%string;
          average_price_eur_kwh := Fin (binary64_round 0.05);
          total_cost_eur := Fin (binary64_round 0.74);
          explanation :=
            ("Recommended charging period: 01:00 to 03:00. "
             ++ "With 14.8 kWh consumption, cost will be 0.74" ++ EURO ++ " "
             ++ "(average price: 0.0500" ++ EURO ++ "/kWh).")%string;
          query_date := "2024-01-15"%string |}.
Proof. vm_compute. reflexivity. Qed.

(** ** The two tools, step by step *)

Ltac io_unfold :=
  unfold io_bind, io_lift, io_ret, io_raise in *; cbn beta iota in *.

Section Tools.

Context {A : arithmetic}.

Lemma checked_date_invalid (today : string) (d : string) :
  (exists e, strptime_Ymd d = Raise e) ->
  checked_date today (Some d) = Raise InvalidDateError.
Proof.
  intros [e He]. unfold checked_date. rewrite He. reflexivity.
Qed.

Lemma checked_date_valid (today : string) (date : option string) (d : string) :
  checked_date today date = Ok d ->
  d = match date with Some given => given | None => today end
  /\ exists ymd, strptime_Ymd d = Ok ymd.
Proof.
  unfold checked_date. intros H.
  destruct (strptime_Ymd (match date with Some g => g | None => today end))
    as [ymd |] eqn:E; [| discriminate].
  injection H as <-. split; [reflexivity |]. exists ymd. exact E.
Qed.

(** [get_pvpc_prices] sends exactly one request, whatever comes back. *)
Lemma get_pvpc_prices_log (http_get : http_request -> http_outcome)
    (date : string) (log : list http_request) :
  snd (get_pvpc_prices http_get date log) = log ++ [price_request date].
Proof.
  unfold get_pvpc_prices, client_get. io_unfold. fold (price_request date).
  destruct (http_get (price_request date)) as [| text | status data];
    try reflexivity.
  destruct (status =? 404); [reflexivity |].
  destruct (negb (status =? 200)); [reflexivity |].
  destruct (included data) as [[| it items] |]; try reflexivity.
  destruct (find is_pvpc_item (it :: items)) as [sel |]; [| reflexivity].
  destruct (item_values sel) as [[| r rs] |]; reflexivity.
Qed.

(** ** C8: no price in the allowed range *)

(** C8. When filtering the series leaves nothing, the optimizer raises the
    error "No prices available in specified hour range", and
    [get_best_charging_hours] ends with that same error, raised after the one
    request it has sent. *)
Theorem no_prices_in_range_propagates :
  (forall prices hour_range kwh,
     filter_prices prices hour_range = [] ->
     find_best_consecutive_hours prices hour_range kwh
     = Raise NoPricesInRangeError)
  /\ (forall http_get today fromisoformat_hour str_float
             date start_hour end_hour kwh log d data log' prices,
        checked_date today date = Ok d ->
        get_pvpc_prices http_get d log = (Ok data, log') ->
        parse_hourly_prices fromisoformat_hour data = Ok prices ->
        filter_prices prices (generate_hour_range start_hour end_hour) = [] ->
        get_best_charging_hours http_get today fromisoformat_hour str_float
          date start_hour end_hour kwh log
        = (Raise NoPricesInRangeError, log')).
Proof.
  split; [exact find_best_empty |].
  intros http_get today fromisoformat_hour str_float date start_hour end_hour
    kwh log d data log' prices Hdate Hfetch Hparse Hempty.
  unfold get_best_charging_hours. io_unfold.
  rewrite Hdate, Hfetch, Hparse.
  rewrite (find_best_empty _ _ _ Hempty). reflexivity.
Qed.

(** ** C9: the date *)

(** A date that [strptime] rejects ends both tools with "Invalid date format.
    Use YYYY-MM-DD" and the log of requests untouched: nothing is fetched. *)
Lemma rejected_date_no_fetch (http_get : http_request -> http_outcome)
    (today : string) (fromisoformat_hour : string -> result Z)
    (str_float : Q -> string) (d : string) (start_hour end_hour : Z) (kwh : Q)
    (log : list http_request) :
  (exists e, strptime_Ymd d = Raise e) ->
  get_best_charging_hours http_get today fromisoformat_hour str_float
    (Some d) start_hour end_hour kwh log = (Raise InvalidDateError, log)
  /\ get_current_pvpc_prices http_get today fromisoformat_hour (Some d) log
     = (Raise InvalidDateError, log).
Proof.
  intros Hbad.
  unfold get_best_charging_hours, get_current_pvpc_prices. io_unfold.
  rewrite (checked_date_invalid today d Hbad). split; reflexivity.
Qed.

(** The malformed date of the specification is rejected. *)
Lemma date_15_01_2024_rejected (http_get : http_request -> http_outcome)
    (today : string) (fromisoformat_hour : string -> result Z)
    (str_float : Q -> string) (start_hour end_hour : Z) (kwh : Q)
    (log : list http_request) :
  get_best_charging_hours http_get today fromisoformat_hour str_float
    (Some "15-01-2024"%string) start_hour end_hour kwh log
  = (Raise InvalidDateError, log)
  /\ get_current_pvpc_prices http_get today fromisoformat_hour
       (Some "15-01-2024"%string) log
     = (Raise InvalidDateError, log).
Proof.
  apply rejected_date_no_fetch. exists ValueError. reflexivity.
Qed.

(** An absent date is the date of today. *)
Lemma absent_date_is_today (http_get : http_request -> http_outcome)
    (today : string) (fromisoformat_hour : string -> result Z)
    (str_float : Q -> string) (start_hour end_hour : Z) (kwh : Q)
    (log : list http_request) :
  get_best_charging_hours http_get today fromisoformat_hour str_float
    None start_hour end_hour kwh log
  = get_best_charging_hours http_get today fromisoformat_hour str_float
      (Some today) start_hour end_hour kwh log
  /\ get_current_pvpc_prices http_get today fromisoformat_hour None log
     = get_current_pvpc_prices http_get today fromisoformat_hour (Some today) log.
Proof. split; reflexivity. Qed.

(** ** C6: the explanation *)

Lemma nonempty_shape {T} (l : list T) :
  l <> [] ->
  (exists h, l = [h]) \/ (exists first middle last, l = first :: middle ++ [last]).
Proof.
  intros Hne. destruct l as [| first rest]; [congruence |].
  destruct rest as [| second rest'].
  - left. now exists first.
  - right.
    destruct (exists_last (l := second :: rest') ltac:(discriminate))
      as (middle & last & ->).
    now exists first, middle, last.
Qed.

Lemma last_snoc {T} (l : list T) (x : T) : Py.last (l ++ [x]) = Ok x.
Proof.
  induction l as [| a l IH]; [reflexivity |].
  cbn [app Py.last]. destruct (l ++ [x]) eqn:E; [| exact IH].
  destruct l; discriminate.
Qed.

(** A successful call of [get_best_charging_hours], step by step. *)
Lemma get_best_charging_hours_ok (http_get : http_request -> http_outcome)
    (today : string) (fromisoformat_hour : string -> result Z)
    (str_float : Q -> string) (date : option string) (start_hour end_hour : Z)
    (kwh : Q) (log log' : list http_request) (r : ChargingRecommendation) :
  get_best_charging_hours http_get today fromisoformat_hour str_float
    date start_hour end_hour kwh log = (Ok r, log') ->
  exists d data prices best_hours avg_price text,
    checked_date today date = Ok d
    /\ get_pvpc_prices http_get d log = (Ok data, log')
    /\ parse_hourly_prices fromisoformat_hour data = Ok prices
    /\ find_best_consecutive_hours prices
         (generate_hour_range start_hour end_hour) kwh
       = Ok (best_hours, avg_price)
    /\ make_explanation str_float best_hours (map format_hour best_hours) kwh
         (float_mul_fin kwh avg_price) avg_price = Ok text
    /\ r = {| recommended_hours := map format_hour best_hours;
              average_price_eur_kwh := py_round_float avg_price 4;
              total_cost_eur := py_round_float (float_mul_fin kwh avg_price) 2;
              explanation := text;
              query_date := d |}.
Proof.
  unfold get_best_charging_hours. io_unfold. intros H.
  destruct (checked_date today date) as [d |] eqn:Hd; [| discriminate].
  destruct (get_pvpc_prices http_get d log) as [[data |] log1] eqn:Hf;
    [| discriminate].
  destruct (parse_hourly_prices fromisoformat_hour data) as [prices |] eqn:Hp;
    [| discriminate].
  destruct (find_best_consecutive_hours prices
              (generate_hour_range start_hour end_hour) kwh)
    as [[best_hours avg_price] |] eqn:Hb; [| discriminate].
  destruct (make_explanation str_float best_hours (map format_hour best_hours)
              kwh (float_mul_fin kwh avg_price) avg_price)
    as [text |] eqn:He; [| discriminate].
  injection H as <- <-.
  exists d, data, prices, best_hours, avg_price, text.
  repeat split; assumption.
Qed.

(** C6. In every recommendation the hours are a window the optimizer
    returned, of one hour or of several.  For one hour the explanation is the
    phrase "Recommended charging time: HH:00."; for several it is
    "Recommended charging period: HH:00 to EE:00." where EE is the last hour
    plus one, written with two digits and not reduced modulo 24: after the
    last hour 23 the phrase ends at "24:00". *)
Theorem explanation_end_boundary (http_get : http_request -> http_outcome)
    (today : string) (fromisoformat_hour : string -> result Z)
    (str_float : Q -> string) (date : option string) (start_hour end_hour : Z)
    (kwh : Q) (log log' : list http_request) (r : ChargingRecommendation) :
  get_best_charging_hours http_get today fromisoformat_hour str_float
    date start_hour end_hour kwh log = (Ok r, log') ->
  exists best_hours avg_price,
    (exists prices,
       find_best_consecutive_hours prices
         (generate_hour_range start_hour end_hour) kwh
       = Ok (best_hours, avg_price))
    /\ recommended_hours r = map format_hour best_hours
    /\ ((exists h, best_hours = [h])
        \/ (exists first middle last, best_hours = first :: middle ++ [last]))
    /\ (forall h,
          best_hours = [h] ->
          explanation r
          = ("Recommended charging time: " ++ format_hour h ++ ". "
             ++ "With " ++ str_float kwh ++ " kWh consumption, cost will be "
             ++ format_f 2 (float_mul_fin kwh avg_price) ++ EURO ++ " "
             ++ "(price: " ++ format_f 4 avg_price ++ EURO ++ "/kWh).")%string)
    /\ (forall first middle last,
          best_hours = first :: middle ++ [last] ->
          explanation r
          = ("Recommended charging period: " ++ format_hour first ++ " to "
             ++ (format_02d (last + 1) ++ ":00") ++ ". "
             ++ "With " ++ str_float kwh ++ " kWh consumption, cost will be "
             ++ format_f 2 (float_mul_fin kwh avg_price) ++ EURO ++ " "
             ++ "(average price: " ++ format_f 4 avg_price ++ EURO
             ++ "/kWh).")%string)
    /\ (forall first middle,
          best_hours = first :: middle ++ [23] ->
          explanation r
          = ("Recommended charging period: " ++ format_hour first ++ " to "
             ++ "24:00" ++ ". "
             ++ "With " ++ str_float kwh ++ " kWh consumption, cost will be "
             ++ format_f 2 (float_mul_fin kwh avg_price) ++ EURO ++ " "
             ++ "(average price: " ++ format_f 4 avg_price ++ EURO
             ++ "/kWh).")%string).
Proof.
  intros Hrun.
  destruct (get_best_charging_hours_ok _ _ _ _ _ _ _ _ _ _ _ Hrun)
    as (d & data & prices & best_hours & avg_price & text
        & _ & _ & _ & Hbest & Htext & ->).
  exists best_hours, avg_price. cbn [recommended_hours explanation].
  assert (Hmulti : forall first middle last,
             best_hours = first :: middle ++ [last] ->
             text
             = ("Recommended charging period: " ++ format_hour first ++ " to "
                ++ (format_02d (last + 1) ++ ":00") ++ ". "
                ++ "With " ++ str_float kwh ++ " kWh consumption, cost will be "
                ++ format_f 2 (float_mul_fin kwh avg_price) ++ EURO ++ " "
                ++ "(average price: " ++ format_f 4 avg_price ++ EURO
                ++ "/kWh).")%string).
  { intros first middle last ->. unfold make_explanation in Htext.
    assert (Hlen : (Py.len (first :: middle ++ [last]) =? 1) = false).
    { apply Z.eqb_neq. unfold Py.len. cbn [List.length].
      rewrite length_app. cbn. lia. }
    rewrite Hlen in Htext. cbn [map Py.first rbind] in Htext.
    change (first :: middle ++ [last]) with ((first :: middle) ++ [last])
      in Htext.
    rewrite last_snoc in Htext. cbn [rbind] in Htext.
    injection Htext as <-. reflexivity. }
  split; [now exists prices |].
  split; [reflexivity |].
  split.
  { apply nonempty_shape. eapply find_best_ok_nonempty. exact Hbest. }
  split; [| split].
  - intros h ->. cbn in Htext. injection Htext as <-. reflexivity.
  - exact Hmulti.
  - intros first middle Hshape. apply (Hmulti first middle 23 Hshape).
Qed.

End Tools.

(** ** The tools on the sample transport *)

Lemma no_prices_in_range_propagates_witness :
  filter_prices [(12, 0.10%Q)] (generate_hour_range 22 7) = []
  /\ Sample.best_hours (A := binary64) [Sample.pvpc_item [(12, 0.10%Q)]]
       None 22 7 10 []
     = (Raise (McpError "No prices available in specified hour range"),
        [price_request "2024-01-15"]).
Proof.
  split; [reflexivity |].
  eapply (proj2 (no_prices_in_range_propagates (A := binary64))).
  - reflexivity.
  - vm_compute. reflexivity.
  - vm_compute. reflexivity.
  - vm_compute. reflexivity.
Defined.

(** A date of the pattern that is no date of the calendar is rejected too. *)
Lemma date_2024_02_30_rejected :
  matches_YYYY_MM_DD "2024-02-30" = true
  /\ strptime_Ymd "2024-02-30" = Raise ValueError.
Proof. split; reflexivity. Qed.

(** C9, at the input where the code departs from it. The string "2024-1-5"
    does not match YYYY-MM-DD, yet [strptime] reads it as 5 January 2024: both
    tools go on and send the request for "2024-1-5", and return a result. *)
Theorem lenient_date_is_fetched :
  matches_YYYY_MM_DD "2024-1-5" = false
  /\ strptime_Ymd "2024-1-5" = Ok (2024, 1, 5)
  /\ (exists recommendation,
        Sample.best_hours (A := binary64) [Sample.pvpc_item scenario_prices]
          (Some "2024-1-5"%string) 22 7 (binary64_round 14.8) []
        = (Ok recommendation, [price_request "2024-1-5"])
        /\ query_date recommendation = "2024-1-5"%string)
  /\ (exists summary,
        Sample.current_prices (A := binary64)
          [Sample.pvpc_item scenario_prices] (Some "2024-1-5"%string) []
        = (Ok summary, [price_request "2024-1-5"]))
  /\ params (price_request "2024-1-5")
     = [ ("start_date", "2024-1-5T00:00"); ("end_date", "2024-1-5T23:59");
         ("time_trunc", "hour") ]%string.
Proof.
  split; [reflexivity |]. split; [reflexivity |].
  split; [| split; [| reflexivity]].
  - eexists. split; [vm_compute; reflexivity | reflexivity].
  - eexists. vm_compute. reflexivity.
Qed.

Lemma explanation_end_boundary_witness :
  exists r,
    Sample.best_hours (A := binary64)
      [Sample.pvpc_item [(22, 0.10%Q); (23, 0.20%Q)]]
      None 22 23 (binary64_round 14.8) []
    = (Ok r, [price_request "2024-01-15"])
    /\ recommended_hours r = ["22:00"; "23:00"]%string
    /\ explanation r
       = ("Recommended charging period: 22:00 to 24:00. "
          ++ "With 14.8 kWh consumption, cost will be 2.22" ++ EURO ++ " "
          ++ "(average price: 0.1500" ++ EURO ++ "/kWh).")%string.
Proof.
  assert (Hrun : exists r,
             Sample.best_hours (A := binary64)
               [Sample.pvpc_item [(22, 0.10%Q); (23, 0.20%Q)]]
               None 22 23 (binary64_round 14.8) []
             = (Ok r, [price_request "2024-01-15"]))
    by (eexists; vm_compute; reflexivity).
  destruct Hrun as [r Hrun]. exists r. split; [exact Hrun |].
  destruct (explanation_end_boundary (A := binary64) _ _ _ _ _ _ _ _ _ _ _ Hrun)
    as (best_hours & avg_price & _ & Hhours & _ & _ & _ & H24).
  pose proof Hrun as Hvalue. vm_compute in Hvalue. injection Hvalue as <-.
  split; vm_compute; reflexivity.
Defined.

(** ** C5: the selection of the PVPC entry *)

Lemma prefix_spec (n h : string) :
  String.prefix n h = true <-> exists after, h = (n ++ after)%string.
Proof.
  revert h. induction n as [| c n IH]; intros h.
  - split; [intros _; exists h; reflexivity |].
    intros _. destruct h; reflexivity.
  - destruct h as [| d h]; cbn.
    + split; [discriminate | intros [after H]; discriminate].
    + destruct (ascii_dec c d) as [-> | Hne].
      * rewrite IH. split; intros [after H]; exists after.
        -- now subst.
        -- now injection H.
      * split; [discriminate |].
        intros [after H]. injection H as Hcd _. now subst.
Qed.

Lemma str_contains_spec (n h : string) :
  str_contains n h = true
  <-> exists before after, h = (before ++ n ++ after)%string.
Proof.
  induction h as [| d h IH]; cbn [str_contains].
  - destruct (String.prefix n "") eqn:E.
    + split; [intros _ | reflexivity].
      apply prefix_spec in E. destruct E as [after E].
      exists ""%string, after. exact E.
    + split; [discriminate |].
      intros ([| b before] & after & H); [| discriminate].
      cbn in H. assert (String.prefix n "" = true)
        by (apply prefix_spec; now exists after).
      congruence.
  - destruct (String.prefix n (String d h)) eqn:E.
    + split; [intros _ | reflexivity].
      apply prefix_spec in E. destruct E as [after E].
      exists ""%string, after. exact E.
    + rewrite IH. split.
      * intros (before & after & ->). now exists (String d before), after.
      * intros ([| b before] & after & H).
        -- cbn in H. assert (String.prefix n (String d h) = true)
             by (apply prefix_spec; now exists after).
           congruence.
        -- cbn in H. injection H as _ ->. now exists before, after.
Qed.

Lemma is_pvpc_item_spec (it : item) : is_pvpc_item it = true <-> pvpc_entry it.
Proof.
  unfold is_pvpc_item, pvpc_entry. rewrite orb_true_iff, str_contains_spec.
  split.
  - intros [Htype | (before & after & Hid)].
    + left. destruct (item_type it) as [t |]; [| discriminate].
      apply String.eqb_eq in Htype. now subst.
    + destruct (item_id it) as [i |].
      * right. now exists i, before, after.
      * destruct before; discriminate.
  - intros [Htype | (i & before & after & Hid & ->)].
    + left. rewrite Htype. apply String.eqb_refl.
    + right. rewrite Hid. now exists before, after.
Qed.

Lemma find_first {T} (f : T -> bool) (before : list T) (x : T) (after : list T) :
  (forall y, In y before -> f y = false) -> f x = true ->
  find f (before ++ x :: after) = Some x.
Proof.
  induction before as [| b before IH]; intros Hnot Hx; cbn.
  - now rewrite Hx.
  - rewrite (Hnot b) by now left.
    apply IH; [| exact Hx]. intros y Hy. apply Hnot. now right.
Qed.

Lemma find_split {T} (f : T -> bool) (l : list T) (x : T) :
  find f l = Some x ->
  exists before after,
    l = before ++ x :: after /\ f x = true
    /\ forall y, In y before -> f y = false.
Proof.
  induction l as [| a l IH]; cbn; [discriminate |].
  destruct (f a) eqn:E.
  - intros [= ->]. exists [], l. repeat split; [exact E | intros y []].
  - intros H. destruct (IH H) as (before & after & -> & Hx & Hnot).
    exists (a :: before), after. repeat split; [exact Hx |].
    intros y [<- | Hy]; [exact E | now apply Hnot].
Qed.

(** The answer of [get_pvpc_prices] to a 200 response, by cases. *)
Lemma get_pvpc_prices_200 (http_get : http_request -> http_outcome)
    (date : string) (log : list http_request) (data : payload) :
  http_get (price_request date) = Response 200 data ->
  fst (get_pvpc_prices http_get date log)
  = match included data with
    | None | Some [] => Raise (McpError (no_price_data date))
    | Some items =>
        match find is_pvpc_item items with
        | None => Raise (McpError (no_pvpc_data date))
        | Some it =>
            match item_values it with
            | None | Some [] => Raise (McpError (no_pvpc_data date))
            | Some _ => Ok it
            end
        end
    end.
Proof.
  intros Hget. unfold get_pvpc_prices, client_get. io_unfold.
  fold (price_request date). rewrite Hget. cbn.
  destruct (included data) as [[| it items] |]; try reflexivity.
  destruct (find is_pvpc_item (it :: items)) as [sel |]; [| reflexivity].
  destruct (item_values sel) as [[| r rs] |]; reflexivity.
Qed.

(** C5, as stated, fails: an entry whose type holds the marker "PVPC" without
    being equal to it, and whose identifier does not hold it, is not selected;
    the operation ends as if no entry matched. *)
Lemma marker_in_type_is_not_selected :
  marker_in_type_or_id labelled_item = true
  /\ (exists readings,
        item_values labelled_item = Some readings /\ readings <> [])
  /\ fst (get_pvpc_prices (Sample.transport [labelled_item]) "2024-01-15" [])
     = Raise (McpError "No PVPC data available for date 2024-01-15").
Proof.
  split; [reflexivity |]. split.
  - eexists. split; [reflexivity | discriminate].
  - reflexivity.
Qed.

(** C5, amended. On a 200 response: without entries the operation fails with
    "No price data available"; otherwise the entry selected is the first one
    whose type is "PVPC" or whose identifier contains "PVPC"; it is returned
    when it has readings; when it has none, or when no entry is selected, the
    operation fails with "No PVPC data available".  Every failure is a
    NoDataError. *)
Theorem pvpc_selection (http_get : http_request -> http_outcome)
    (date : string) (log : list http_request) (data : payload) :
  http_get (price_request date) = Response 200 data ->
  let answer := fst (get_pvpc_prices http_get date log) in
  (included data = None \/ included data = Some [] ->
   answer = Raise (McpError (no_price_data date)))
  /\ (forall items,
        included data = Some items -> items <> [] ->
        ((forall x, In x items -> ~ pvpc_entry x) ->
         answer = Raise (McpError (no_pvpc_data date)))
        /\ (forall before it after,
              items = before ++ it :: after ->
              (forall x, In x before -> ~ pvpc_entry x) ->
              pvpc_entry it ->
              (item_values it = None \/ item_values it = Some [] ->
               answer = Raise (McpError (no_pvpc_data date)))
              /\ (forall readings,
                    item_values it = Some readings -> readings <> [] ->
                    answer = Ok it)))
  /\ (forall it,
        answer = Ok it ->
        pvpc_entry it
        /\ exists items before after readings,
            included data = Some items
            /\ items = before ++ it :: after
            /\ (forall x, In x before -> ~ pvpc_entry x)
            /\ item_values it = Some readings /\ readings <> [])
  /\ (forall e, answer = Raise e -> NoDataError e).
Proof.
  intros Hget answer. subst answer.
  rewrite (get_pvpc_prices_200 http_get date log data Hget).
  split; [| split; [| split]].
  - intros [-> | ->]; reflexivity.
  - intros items -> Hne. destruct items as [| first rest]; [congruence |].
    split.
    + intros Hnone.
      destruct (find is_pvpc_item (first :: rest)) as [sel |] eqn:E;
        [| reflexivity].
      apply find_some in E. destruct E as [Hin Hsel].
      apply is_pvpc_item_spec in Hsel. now apply Hnone in Hin.
    + intros before it after Hsplit Hbefore Hit.
      rewrite Hsplit, find_first.
      * split.
        -- intros [-> | ->]; reflexivity.
        -- intros readings -> Hne'. destruct readings; [congruence | reflexivity].
      * intros y Hy. destruct (is_pvpc_item y) eqn:E; [| reflexivity].
        apply is_pvpc_item_spec in E. now apply Hbefore in Hy.
      * now apply is_pvpc_item_spec.
  - intros it Hok.
    destruct (included data) as [[| first rest] |]; try discriminate.
    destruct (find is_pvpc_item (first :: rest)) as [sel |] eqn:E;
      [| discriminate].
    destruct (item_values sel) as [[| r rs] |] eqn:Ev; try discriminate.
    injection Hok as <-.
    destruct (find_split _ _ _ E) as (before & after & Hsplit & Hsel & Hnot).
    split; [now apply is_pvpc_item_spec |].
    exists (first :: rest), before, after, (r :: rs).
    repeat split; try assumption; try discriminate.
    intros x Hx Hentry. apply is_pvpc_item_spec in Hentry.
    rewrite (Hnot x Hx) in Hentry. discriminate.
  - intros e Hraise. exists date.
    destruct (included data) as [[| first rest] |].
    + left. congruence.
    + destruct (find is_pvpc_item (first :: rest)) as [sel |];
        [| right; congruence].
      destruct (item_values sel) as [[| r rs] |]; right; congruence.
    + left. congruence.
Qed.

Lemma pvpc_selection_witness :
  Sample.transport [Sample.spot_item; Sample.pvpc_item scenario_prices]
    (price_request "2024-01-15")
  = Response 200
      {| included := Some [Sample.spot_item; Sample.pvpc_item scenario_prices] |}
  /\ fst (get_pvpc_prices
            (Sample.transport [Sample.spot_item; Sample.pvpc_item scenario_prices])
            "2024-01-15" [])
     = Ok (Sample.pvpc_item scenario_prices).
Proof.
  split; [reflexivity |].
  destruct (pvpc_selection
              (Sample.transport [Sample.spot_item; Sample.pvpc_item scenario_prices])
              "2024-01-15" [] _ eq_refl) as (_ & Hsel & _).
  destruct (Hsel _ eq_refl ltac:(discriminate)) as (_ & Hfirst).
  eapply (Hfirst [Sample.spot_item] _ []).
  - reflexivity.
  - intros x [<- | []] [Htype | (i & before & after & Hid & Hi)].
    + discriminate Htype.
    + injection Hid as <-.
      assert (Hc : str_contains "PVPC" "600" = true)
        by (apply str_contains_spec; now exists before, after).
      discriminate Hc.
  - left. reflexivity.
  - reflexivity.
  - discriminate.
Defined.

(** ** Rounding *)

Lemma round_half_even_near (x : Q) :
  (inject_Z (round_half_even x) - (1 # 2) <= x
   /\ x <= inject_Z (round_half_even x) + (1 # 2))%Q.
Proof.
  unfold round_half_even.
  pose proof (Qfloor_le x) as Hlo. pose proof (Qlt_floor x) as Hhi.
  rewrite inject_Z_plus in Hhi. change (inject_Z 1) with 1%Q in Hhi.
  destruct (Qcompare_spec (x - inject_Z (Qfloor x)) (1 # 2)) as [He | Hl | Hg].
  - destruct (Z.even (Qfloor x)).
    + split; lra.
    + rewrite inject_Z_plus. change (inject_Z 1) with 1%Q. split; lra.
  - split; lra.
  - rewrite inject_Z_plus. change (inject_Z 1) with 1%Q. split; lra.
Qed.

Lemma round_half_even_mono (x y : Q) :
  (x <= y)%Q -> round_half_even x <= round_half_even y.
Proof.
  intros Hxy. pose proof (Qfloor_resp_le x y Hxy) as Hfl.
  destruct (Z.eq_dec (Qfloor x) (Qfloor y)) as [Heq | Hne].
  - unfold round_half_even. rewrite <- Heq.
    destruct (Qcompare_spec (x - inject_Z (Qfloor x)) (1 # 2)) as [He | Hl | Hg];
      destruct (Qcompare_spec (y - inject_Z (Qfloor x)) (1 # 2)) as [He' | Hl' | Hg'];
      try destruct (Z.even (Qfloor x)); try lia; exfalso; lra.
  - assert (Hstep : Qfloor x + 1 <= Qfloor y) by lia.
    assert (Hx : round_half_even x <= Qfloor x + 1).
    { unfold round_half_even.
      destruct (x - inject_Z (Qfloor x) ?= 1 # 2)%Q;
        try destruct (Z.even (Qfloor x)); lia. }
    assert (Hy : Qfloor y <= round_half_even y).
    { unfold round_half_even.
      destruct (y - inject_Z (Qfloor y) ?= 1 # 2)%Q;
        try destruct (Z.even (Qfloor y)); lia. }
    lia.
Qed.

Lemma pow10_pos (n : nat) : (0 < pow10 n)%Q.
Proof.
  unfold pow10. change 0%Q with (inject_Z 0). rewrite <- Zlt_Qlt.
  apply Z.pow_pos_nonneg; lia.
Qed.

(** ** Exact arithmetic

    From here to the end of the section the arithmetic is [exact]. *)

Section ExactArithmetic.

#[local] Existing Instance exact.

Lemma py_round_mono (x y : Q) (n : nat) :
  (x <= y)%Q -> (py_round x n <= py_round y n)%Q.
Proof.
  intros Hxy. unfold py_round. cbn [fl exact]. pose proof (pow10_pos n) as Hp.
  apply Qmult_le_compat_r.
  - rewrite <- Zle_Qle. apply round_half_even_mono.
    apply Qmult_le_compat_r; [exact Hxy | lra].
  - apply Qlt_le_weak, Qinv_lt_0_compat, Hp.
Qed.

Lemma py_round_comp (x y : Q) (n : nat) :
  (x == y)%Q -> py_round x n = py_round y n.
Proof.
  intros Hxy. unfold py_round, round_half_even. cbn [fl exact].
  assert (Hs : (x * pow10 n == y * pow10 n)%Q) by (rewrite Hxy; reflexivity).
  rewrite (Qfloor_comp _ _ Hs).
  assert (Hc : (x * pow10 n - inject_Z (Qfloor (y * pow10 n)) ?= 1 # 2)%Q
               = (y * pow10 n - inject_Z (Qfloor (y * pow10 n)) ?= 1 # 2)%Q).
  { apply Qcompare_comp; [rewrite Hs |]; reflexivity. }
  rewrite Hc. reflexivity.
Qed.

(** [round(x, n)] is within half a unit of the last place of [x]. *)
Lemma py_round_near (x : Q) (n : nat) :
  (py_round x n - (1 # 2) / pow10 n <= x
   /\ x <= py_round x n + (1 # 2) / pow10 n)%Q.
Proof.
  unfold py_round. cbn [fl exact]. pose proof (pow10_pos n) as Hp.
  destruct (round_half_even_near (x * pow10 n)) as [Hlo Hhi].
  set (k := inject_Z (round_half_even (x * pow10 n))) in *.
  assert (Hx : (x * pow10 n / pow10 n == x)%Q) by (field; lra).
  assert (Hinv : (0 <= / pow10 n)%Q)
    by apply Qlt_le_weak, Qinv_lt_0_compat, Hp.
  split.
  - apply (Qle_trans _ (x * pow10 n / pow10 n)); [| rewrite Hx; apply Qle_refl].
    setoid_replace (k / pow10 n - (1 # 2) / pow10 n)%Q
      with ((k - (1 # 2)) / pow10 n)%Q by (field; lra).
    apply Qmult_le_compat_r; assumption.
  - apply (Qle_trans _ (x * pow10 n / pow10 n)); [rewrite Hx; apply Qle_refl |].
    setoid_replace (k / pow10 n + (1 # 2) / pow10 n)%Q
      with ((k + (1 # 2)) / pow10 n)%Q by (field; lra).
    apply Qmult_le_compat_r; assumption.
Qed.

(** ** Minimum, maximum and mean of a list *)

Lemma fold_min_spec (rest : list Q) (acc : Q) :
  let m := fold_left (fun m y => if Qltb y m then y else m) rest acc in
  (m <= acc)%Q /\ (forall y, In y rest -> (m <= y)%Q) /\ In m (acc :: rest).
Proof.
  revert acc. induction rest as [| y rest IH]; intros acc; cbn [fold_left].
  - split; [apply Qle_refl |]. split; [intros y [] | now left].
  - destruct (IH (if Qltb y acc then y else acc)) as (Hacc & Hrest & Hin).
    destruct (Qltb y acc) eqn:E.
    + apply Qltb_lt in E. split; [lra |]. split.
      * intros z [<- | Hz]; [exact Hacc | now apply Hrest].
      * destruct Hin as [<- | Hin]; [right; now left | right; now right].
    + apply Qltb_ge in E. split; [exact Hacc |]. split.
      * intros z [<- | Hz]; [lra | now apply Hrest].
      * destruct Hin as [<- | Hin]; [now left | right; now right].
Qed.

Lemma fold_max_spec (rest : list Q) (acc : Q) :
  let m := fold_left (fun m y => if Qltb m y then y else m) rest acc in
  (acc <= m)%Q /\ (forall y, In y rest -> (y <= m)%Q) /\ In m (acc :: rest).
Proof.
  revert acc. induction rest as [| y rest IH]; intros acc; cbn [fold_left].
  - split; [apply Qle_refl |]. split; [intros y [] | now left].
  - destruct (IH (if Qltb acc y then y else acc)) as (Hacc & Hrest & Hin).
    destruct (Qltb acc y) eqn:E.
    + apply Qltb_lt in E. split; [lra |]. split.
      * intros z [<- | Hz]; [exact Hacc | now apply Hrest].
      * destruct Hin as [<- | Hin]; [right; now left | right; now right].
    + apply Qltb_ge in E. split; [exact Hacc |]. split.
      * intros z [<- | Hz]; [lra | now apply Hrest].
      * destruct Hin as [<- | Hin]; [now left | right; now right].
Qed.

Lemma py_min_spec (xs : list Q) (m : Q) :
  py_min xs = Ok m -> In m xs /\ forall x, In x xs -> (m <= x)%Q.
Proof.
  destruct xs as [| x rest]; cbn; [discriminate |].
  intros [= <-]. destruct (fold_min_spec rest x) as (Hacc & Hrest & Hin).
  split; [exact Hin |]. intros z [<- | Hz]; [exact Hacc | now apply Hrest].
Qed.

Lemma py_max_spec (xs : list Q) (m : Q) :
  py_max xs = Ok m -> In m xs /\ forall x, In x xs -> (x <= m)%Q.
Proof.
  destruct xs as [| x rest]; cbn; [discriminate |].
  intros [= <-]. destruct (fold_max_spec rest x) as (Hacc & Hrest & Hin).
  split; [exact Hin |]. intros z [<- | Hz]; [exact Hacc | now apply Hrest].
Qed.

Lemma inject_len_cons {T} (x : T) (xs : list T) :
  (inject_Z (Z.of_nat (List.length (x :: xs)))
   == inject_Z (Z.of_nat (List.length xs)) + 1)%Q.
Proof.
  cbn [List.length]. rewrite Nat2Z.inj_succ, <- Z.add_1_r, inject_Z_plus.
  reflexivity.
Qed.

Lemma inject_len_pos {T} (xs : list T) :
  xs <> [] -> (0 < inject_Z (Z.of_nat (List.length xs)))%Q.
Proof.
  intros Hne. change 0%Q with (inject_Z 0). rewrite <- Zlt_Qlt.
  destruct xs; [congruence | cbn; lia].
Qed.

(** The sum of a list lies between its length times a lower bound and its
    length times an upper bound of the elements. *)
Lemma sum_between (xs : list Q) (lo hi : Q) :
  (forall x, In x xs -> (lo <= x)%Q /\ (x <= hi)%Q) ->
  (inject_Z (Z.of_nat (List.length xs)) * lo <= fold_right Qplus 0 xs
   /\ fold_right Qplus 0 xs <= inject_Z (Z.of_nat (List.length xs)) * hi)%Q.
Proof.
  induction xs as [| x xs IH]; intros Hb.
  - cbn [List.length fold_right]. change (inject_Z (Z.of_nat 0)) with 0%Q.
    split; lra.
  - destruct IH as [IHlo IHhi]; [intros y Hy; apply Hb; now right |].
    destruct (Hb x (or_introl eq_refl)) as [Hlo Hhi].
    rewrite inject_len_cons. cbn [fold_right]. split; lra.
Qed.

Lemma arith_mean_between (xs : list Q) (lo hi : Q) :
  xs <> [] ->
  (forall x, In x xs -> (lo <= x)%Q /\ (x <= hi)%Q) ->
  (lo <= arith_mean xs)%Q /\ (arith_mean xs <= hi)%Q.
Proof.
  intros Hne Hb. unfold arith_mean.
  pose proof (inject_len_pos xs Hne) as Hlen.
  destruct (sum_between xs lo hi Hb) as [Hlo Hhi].
  split.
  - apply Qle_shift_div_l; [exact Hlen | lra].
  - apply Qle_shift_div_r; [exact Hlen | lra].
Qed.

(** Moving every element by at most [eps] moves the mean by at most [eps]. *)
Lemma sum_map_near (f : Q -> Q) (eps : Q) (xs : list Q) :
  (forall x, (f x - eps <= x)%Q /\ (x <= f x + eps)%Q) ->
  (fold_right Qplus 0 (map f xs) - inject_Z (Z.of_nat (List.length xs)) * eps
   <= fold_right Qplus 0 xs
   /\ fold_right Qplus 0 xs
      <= fold_right Qplus 0 (map f xs)
         + inject_Z (Z.of_nat (List.length xs)) * eps)%Q.
Proof.
  intros Hf. induction xs as [| x xs [IHlo IHhi]].
  - cbn [List.length map fold_right]. change (inject_Z (Z.of_nat 0)) with 0%Q.
    split; lra.
  - destruct (Hf x) as [Hlo Hhi].
    rewrite inject_len_cons. cbn [map fold_right]. split; lra.
Qed.

Lemma arith_mean_map_near (f : Q -> Q) (eps : Q) (xs : list Q) :
  xs <> [] ->
  (forall x, (f x - eps <= x)%Q /\ (x <= f x + eps)%Q) ->
  (arith_mean (map f xs) - eps <= arith_mean xs
   /\ arith_mean xs <= arith_mean (map f xs) + eps)%Q.
Proof.
  intros Hne Hf. unfold arith_mean. rewrite length_map.
  pose proof (inject_len_pos xs Hne) as Hlen.
  destruct (sum_map_near f eps xs Hf) as [Hlo Hhi].
  set (len := inject_Z (Z.of_nat (List.length xs))) in *.
  set (s := fold_right Qplus 0%Q xs) in *.
  set (t := fold_right Qplus 0%Q (map f xs)) in *.
  split.
  - setoid_replace (t / len - eps)%Q with ((t - len * eps) / len)%Q
      by (field; lra).
    apply Qmult_le_compat_r; [exact Hlo |].
    apply Qlt_le_weak, Qinv_lt_0_compat, Hlen.
  - setoid_replace (t / len + eps)%Q with ((t + len * eps) / len)%Q
      by (field; lra).
    apply Qmult_le_compat_r; [exact Hhi |].
    apply Qlt_le_weak, Qinv_lt_0_compat, Hlen.
Qed.

(** ** C7: the statistics of the day *)

(** A successful call of [get_current_pvpc_prices], step by step. *)
Lemma get_current_pvpc_prices_ok (http_get : http_request -> http_outcome)
    (today : string) (fromisoformat_hour : string -> result Z)
    (date : option string) (log log' : list http_request) (summary : PVPCData) :
  get_current_pvpc_prices http_get today fromisoformat_hour date log
  = (Ok summary, log') ->
  exists d data prices lowest highest mean,
    checked_date today date = Ok d
    /\ get_pvpc_prices http_get d log = (Ok data, log')
    /\ parse_hourly_prices fromisoformat_hour data = Ok prices
    /\ py_min (map snd prices) = Ok lowest
    /\ py_max (map snd prices) = Ok highest
    /\ Py.truediv (Py.sum (map snd prices)) (Py.len (map snd prices)) = Ok mean
    /\ summary
       = {| date := d;
            hourly_prices :=
              map (fun hp => {| hour := format_hour (fst hp);
                                price_eur_kwh := py_round (snd hp) 4 |}) prices;
            min_price := py_round lowest 4;
            max_price := py_round highest 4;
            average_price := py_round mean 4 |}.
Proof.
  unfold get_current_pvpc_prices. io_unfold. intros H.
  destruct (checked_date today date) as [d |] eqn:Hd; [| discriminate].
  destruct (get_pvpc_prices http_get d log) as [[data |] log1] eqn:Hf;
    [| discriminate].
  destruct (parse_hourly_prices fromisoformat_hour data) as [prices |] eqn:Hp;
    [| discriminate].
  destruct (py_min (map snd prices)) as [lowest |] eqn:Hmin; [| discriminate].
  destruct (py_max (map snd prices)) as [highest |] eqn:Hmax; [| discriminate].
  destruct (Py.truediv (Py.sum (map snd prices)) (Py.len (map snd prices)))
    as [mean |] eqn:Hmean; [| discriminate].
  injection H as <- <-.
  exists d, data, prices, lowest, highest, mean.
  repeat split; assumption.
Qed.

Lemma truediv_mean (xs : list Q) (mean : Q) :
  Py.truediv (Py.sum xs) (Py.len xs) = Ok mean ->
  xs <> [] /\ (mean == arith_mean xs)%Q.
Proof.
  unfold Py.truediv, Py.len, arith_mean. cbn [fl exact].
  destruct (Z.eqb_spec (Z.of_nat (List.length xs)) 0) as [Hz | Hnz];
    [discriminate |].
  intros [= <-]. split.
  - intros ->. now apply Hnz.
  - cbn [fl exact]. rewrite sum_from, Qplus_0_l. reflexivity.
Qed.

(** In exact arithmetic, in every summary returned: the prices listed are the
    parsed prices of the day, each rounded to 4 decimals; the minimum and the
    maximum are the least and the greatest parsed price, rounded to 4
    decimals; the average is the arithmetic mean of the parsed prices, rounded
    to 4 decimals; the minimum is at most the average and the average at most
    the maximum; and the average is within 0.0001 of the arithmetic mean of
    the prices listed in the summary. *)
Lemma exact_summary_statistics (http_get : http_request -> http_outcome)
    (today : string) (fromisoformat_hour : string -> result Z)
    (date : option string) (log log' : list http_request) (summary : PVPCData) :
  get_current_pvpc_prices http_get today fromisoformat_hour date log
  = (Ok summary, log') ->
  exists prices,
    prices <> []
    /\ (exists d data,
          checked_date today date = Ok d
          /\ get_pvpc_prices http_get d log = (Ok data, log')
          /\ parse_hourly_prices fromisoformat_hour data = Ok prices)
    /\ map price_eur_kwh (hourly_prices summary)
       = map (fun hp => py_round (snd hp) 4) prices
    /\ (exists lowest,
          In lowest (map snd prices)
          /\ (forall p, In p (map snd prices) -> (lowest <= p)%Q)
          /\ min_price summary = py_round lowest 4)
    /\ (exists highest,
          In highest (map snd prices)
          /\ (forall p, In p (map snd prices) -> (p <= highest)%Q)
          /\ max_price summary = py_round highest 4)
    /\ average_price summary = py_round (arith_mean (map snd prices)) 4
    /\ (min_price summary <= average_price summary)%Q
    /\ (average_price summary <= max_price summary)%Q
    /\ (average_price summary - (1 # 10000)
        <= arith_mean (map price_eur_kwh (hourly_prices summary)))%Q
    /\ (arith_mean (map price_eur_kwh (hourly_prices summary))
        <= average_price summary + (1 # 10000))%Q.
Proof.
  intros Hrun.
  destruct (get_current_pvpc_prices_ok _ _ _ _ _ _ _ Hrun)
    as (d & data & prices & lowest & highest & mean
        & Hd & Hf & Hp & Hmin & Hmax & Hmean & ->).
  cbn [hourly_prices min_price max_price average_price].
  destruct (truediv_mean _ _ Hmean) as [Hne Hmean'].
  destruct (py_min_spec _ _ Hmin) as [Hlow_in Hlow].
  destruct (py_max_spec _ _ Hmax) as [Hhigh_in Hhigh].
  rewrite (py_round_comp _ _ 4 Hmean').
  destruct (arith_mean_between (map snd prices) lowest highest Hne)
    as [Hlo Hhi].
  { intros x Hx. split; [now apply Hlow | now apply Hhigh]. }
  assert (Hlisted : map price_eur_kwh
                      (map (fun hp => {| hour := format_hour (fst hp);
                                         price_eur_kwh := py_round (snd hp) 4 |})
                         prices)
                    = map (fun x => py_round x 4) (map snd prices)).
  { rewrite !map_map. reflexivity. }
  exists prices.
  split; [intros ->; now apply Hne |].
  split; [now exists d, data |].
  split; [rewrite Hlisted, map_map; reflexivity |].
  split; [now exists lowest |].
  split; [now exists highest |].
  split; [reflexivity |].
  split; [now apply py_round_mono |].
  split; [now apply py_round_mono |].
  rewrite Hlisted.
  destruct (arith_mean_map_near (fun x => py_round x 4) ((1 # 2) / pow10 4)
              (map snd prices) Hne) as [Hnear_lo Hnear_hi].
  { intros x. apply py_round_near. }
  destruct (py_round_near (arith_mean (map snd prices)) 4) as [Hr_lo Hr_hi].
  assert (Heps : ((1 # 2) / pow10 4 == 1 # 20000)%Q) by reflexivity.
  rewrite Heps in Hnear_lo, Hnear_hi, Hr_lo, Hr_hi.
  split; lra.
Qed.

End ExactArithmetic.

(** ** C7: the statistics of a flat day in binary64 *)

(** C7, at an input where the code departs from it. On a day whose 24 hours
    are all published at 0.45 per MWh, in binary64 with either [sum]: every
    price is a double below 0.00045 and rounds to 0.0004, so the minimum and
    the maximum are 0.0004; the sum of the 24 prices divided by 24 is a
    double above 0.00045 and rounds to 0.0005; the average returned is above
    the maximum returned.  In exact arithmetic the three statistics of that
    day are equal. *)
Theorem flat_day_average_above_maximum :
  Forall (fun A : arithmetic =>
            exists summary,
              Sample.current_prices (A := A) [Sample.pvpc_item flat_day]
                (Some "2024-01-15"%string) []
              = (Ok summary, [price_request "2024-01-15"])
              /\ List.length (hourly_prices summary) = 24%nat
              /\ (fl (fl 0.45 / 1000) < 0.00045)%Q
              /\ (0.00045
                  < window_mean
                      (map (fun h => (h, fl (fl 0.45 / 1000))) (Py.range 0 24)))%Q
              /\ Forall (fun listed =>
                           price_eur_kwh listed = binary64_round 0.0004)
                        (hourly_prices summary)
              /\ min_price summary = binary64_round 0.0004
              /\ max_price summary = binary64_round 0.0004
              /\ average_price summary = binary64_round 0.0005
              /\ (max_price summary < average_price summary)%Q)
         [binary64; binary64_compensated]
  /\ (exists summary,
        Sample.current_prices (A := exact) [Sample.pvpc_item flat_day]
          (Some "2024-01-15"%string) []
        = (Ok summary, [price_request "2024-01-15"])
        /\ (min_price summary == average_price summary)%Q
        /\ (average_price summary == max_price summary)%Q).
Proof.
  split.
  - repeat (apply Forall_cons;
            [eexists; split; [vm_compute; reflexivity |];
             split; [vm_compute; reflexivity |];
             split; [vm_compute; reflexivity |];
             split; [vm_compute; reflexivity |];
             split; [vm_compute; repeat constructor |];
             repeat split; vm_compute; reflexivity |]).
    apply Forall_nil.
  - eexists. split; [vm_compute; reflexivity |].
    split; vm_compute; reflexivity.
Qed.

(** * More of the advisor *)

(** ** The hour range on any pair of integers *)

Lemma hour_range_In (start end_ h : Z) :
  In h (generate_hour_range start end_)
  <-> (start <= end_ /\ start <= h <= end_)
      \/ (end_ < start /\ (start <= h <= 23 \/ 0 <= h <= end_)).
Proof.
  unfold generate_hour_range.
  destruct (Z.leb_spec start end_) as [Hle | Hgt].
  - rewrite range_In. lia.
  - rewrite in_app_iff, !range_In. lia.
Qed.

(** X1. An hour is in the range of [start] and [end] exactly when it lies
    between them, or, when [end] is below [start], when it lies from [start]
    to 23 or from 0 to [end]; this for all integers, also outside 0..23. *)
Theorem hour_range_membership (start end_ h : Z) :
  In h (generate_hour_range start end_)
  <-> (start <= end_ /\ start <= h <= end_)
      \/ (end_ < start /\ (start <= h <= 23 \/ 0 <= h <= end_)).
Proof. apply hour_range_In. Qed.

Lemma range_NoDup (a b : Z) : NoDup (Py.range a b).
Proof.
  unfold Py.range. apply Finite.Injective_map_NoDup; [| apply seq_NoDup].
  intros x y Hxy. lia.
Qed.

(** X2. For [start] and [end] in 0..23 the range holds each hour once, only
    hours of 0..23, and so between 1 and 24 of them; when [start] is the hour
    after [end] it holds all 24 hours. *)
Theorem hour_range_no_repeat (start end_ : Z) :
  0 <= start <= 23 -> 0 <= end_ <= 23 ->
  NoDup (generate_hour_range start end_)
  /\ (forall h, In h (generate_hour_range start end_) -> 0 <= h <= 23)
  /\ 1 <= Py.len (generate_hour_range start end_) <= 24
  /\ (start = end_ + 1 ->
      forall h, 0 <= h <= 23 -> In h (generate_hour_range start end_)).
Proof.
  intros Hs He.
  split; [| split; [| split]].
  - unfold generate_hour_range. destruct (Z.leb_spec start end_).
    + apply range_NoDup.
    + apply NoDup_app; try apply range_NoDup.
      intros h H1 H2. apply range_In in H1. apply range_In in H2. lia.
  - intros h Hh. apply hour_range_In in Hh. lia.
  - unfold generate_hour_range. destruct (Z.leb_spec start end_).
    + rewrite range_len. lia.
    + unfold Py.len. rewrite length_app.
      pose proof (range_len start 24) as H1.
      pose proof (range_len 0 (end_ + 1)) as H2.
      unfold Py.len in H1, H2. lia.
  - intros Hnext h Hh. apply hour_range_In. lia.
Qed.

Lemma hour_range_no_repeat_witness :
  0 <= 8 <= 23 /\ 0 <= 7 <= 23
  /\ NoDup (generate_hour_range 8 7)
  /\ Py.len (generate_hour_range 8 7) = 24
  /\ In 3 (generate_hour_range 8 7).
Proof.
  assert (Hs : 0 <= 8 <= 23) by lia.
  assert (He : 0 <= 7 <= 23) by lia.
  destruct (hour_range_no_repeat 8 7 Hs He) as (Hnodup & _ & _ & Hall).
  repeat split; try lia; try exact Hnodup.
  apply Hall; lia.
Defined.

(** ** More of the search *)

Section MoreSearch.

Context {A : arithmetic}.

Lemma filter_prices_same_hours (prices : list (Z * Q)) (r1 r2 : list Z) :
  (forall h, In h r1 <-> In h r2) ->
  filter_prices prices r1 = filter_prices prices r2.
Proof.
  intros Hsame. unfold filter_prices. apply filter_ext. intros hp.
  unfold Py.contains.
  destruct (existsb (Z.eqb (fst hp)) r1) eqn:E1;
    destruct (existsb (Z.eqb (fst hp)) r2) eqn:E2; try reflexivity.
  - apply existsb_exists in E1. destruct E1 as (h & Hin & Heq).
    apply Hsame in Hin.
    assert (existsb (Z.eqb (fst hp)) r2 = true)
      by (apply existsb_exists; now exists h).
    congruence.
  - apply existsb_exists in E2. destruct E2 as (h & Hin & Heq).
    apply Hsame in Hin.
    assert (existsb (Z.eqb (fst hp)) r1 = true)
      by (apply existsb_exists; now exists h).
    congruence.
Qed.

(** X3. The optimizer looks at the allowed hours as a set: two lists with the
    same members, in any order and with any repetitions, give the same result. *)
Theorem allowed_hours_as_a_set (prices : list (Z * Q)) (r1 r2 : list Z)
    (kwh : Q) :
  (forall h, In h r1 <-> In h r2) ->
  find_best_consecutive_hours prices r1 kwh
  = find_best_consecutive_hours prices r2 kwh.
Proof.
  intros Hsame. unfold find_best_consecutive_hours.
  rewrite (filter_prices_same_hours prices r1 r2 Hsame). reflexivity.
Qed.

Lemma slice_In {T} (l : list T) (i j : Z) (x : T) :
  In x (Py.slice l i j) -> In x l.
Proof.
  unfold Py.slice. intros H.
  rewrite <- (firstn_skipn (Z.to_nat i) l). apply in_or_app. right.
  rewrite <- (firstn_skipn (Z.to_nat (j - i)) (skipn (Z.to_nat i) l)).
  apply in_or_app. now left.
Qed.

Lemma find_best_ok_window (prices : list (Z * Q)) (hour_range : list Z)
    (kwh : Q) (hours : list Z) (avg : pyfloat) :
  find_best_consecutive_hours prices hour_range kwh = Ok (hours, avg) ->
  let filtered := filter_prices prices hour_range in
  let n := Z.min (hours_needed_of kwh) (Py.len filtered) in
  exists i,
    0 <= i <= Py.len filtered - n
    /\ 1 <= n <= Py.len filtered
    /\ hours = map fst (window_at filtered n i)
    /\ avg = Fin (avg_at filtered n i).
Proof.
  intros Hres filtered n. subst filtered n.
  assert (Hne : filter_prices prices hour_range <> []).
  { intros Hnil. rewrite (find_best_empty _ _ _ Hnil) in Hres. discriminate. }
  destruct (find_best_unfold prices hour_range kwh Hne)
    as (i & Hi & Hn & Hres' & _).
  rewrite Hres in Hres'. injection Hres' as -> ->.
  exists i. repeat split; try reflexivity; lia.
Qed.

Lemma find_best_hours_facts (prices : list (Z * Q)) (hour_range : list Z)
    (kwh : Q) (hours : list Z) (avg : pyfloat) :
  find_best_consecutive_hours prices hour_range kwh = Ok (hours, avg) ->
  (forall h, In h hours -> In h hour_range /\ In h (map fst prices))
  /\ 1 <= Py.len hours <= hours_needed_of kwh
  /\ Py.len hours <= Py.len prices.
Proof.
  intros Hres.
  destruct (find_best_ok_window _ _ _ _ _ Hres) as (i & Hi & Hn & -> & _).
  assert (Hlen : Py.len (map fst (window_at (filter_prices prices hour_range)
                   (Z.min (hours_needed_of kwh)
                      (Py.len (filter_prices prices hour_range))) i))
                 = Z.min (hours_needed_of kwh)
                     (Py.len (filter_prices prices hour_range))).
  { unfold Py.len at 1. rewrite length_map. apply window_at_len; lia. }
  split; [| split].
  - intros h Hh. apply in_map_iff in Hh. destruct Hh as (hp & <- & Hhp).
    apply slice_In in Hhp. apply filter_prices_In in Hhp.
    split; [apply Hhp | apply in_map, Hhp].
  - rewrite Hlen. lia.
  - rewrite Hlen.
    assert (Py.len (filter_prices prices hour_range) <= Py.len prices).
    { unfold Py.len, filter_prices.
      pose proof (filter_length_le
                    (fun hp => Py.contains hour_range (fst hp)) prices). lia. }
    lia.
Qed.


Lemma filter_prices_idem (prices : list (Z * Q)) (hour_range : list Z) :
  filter_prices (filter_prices prices hour_range) hour_range
  = filter_prices prices hour_range.
Proof.
  unfold filter_prices. induction prices as [| hp prices IH]; [reflexivity |].
  cbn [filter]. destruct (Py.contains hour_range (fst hp)) eqn:E.
  - cbn [filter]. rewrite E, IH. reflexivity.
  - exact IH.
Qed.

(** X5. The prices of the hours outside the allowed range have no part in the
    result: the optimizer gives the same answer on the series and on the
    series without them. *)
Theorem other_hours_have_no_part (prices : list (Z * Q)) (hour_range : list Z)
    (kwh : Q) :
  find_best_consecutive_hours (filter_prices prices hour_range) hour_range kwh
  = find_best_consecutive_hours prices hour_range kwh.
Proof.
  unfold find_best_consecutive_hours. rewrite filter_prices_idem. reflexivity.
Qed.

Lemma slice_ascending (l : list (Z * Q)) (i j : Z) :
  ascending_hours l -> ascending_hours (Py.slice l i j).
Proof.
  unfold ascending_hours, Py.slice. intros Hl.
  assert (Hskip : forall n (m : list (Z * Q)),
             StronglySorted (fun a b => fst a <= fst b) m ->
             StronglySorted (fun a b => fst a <= fst b) (skipn n m)).
  { induction n as [| n IHn]; intros m Hm; [exact Hm |].
    destruct m as [| a m]; [exact Hm |]. cbn [skipn]. apply IHn.
    now inversion Hm. }
  assert (Hfirst : forall n (m : list (Z * Q)),
             StronglySorted (fun a b => fst a <= fst b) m ->
             StronglySorted (fun a b => fst a <= fst b) (firstn n m)).
  { induction n as [| n IHn]; intros m Hm; [constructor |].
    destruct m as [| a m]; [constructor |]. cbn [firstn].
    inversion Hm as [| ? ? Hm' Hall]; subst. constructor; [now apply IHn |].
    rewrite Forall_forall in *. intros y Hy. apply Hall.
    rewrite <- (firstn_skipn n m). apply in_or_app. now left. }
  apply Hfirst, Hskip, Hl.
Qed.

Lemma map_fst_ascending (l : list (Z * Q)) :
  ascending_hours l -> StronglySorted Z.le (map fst l).
Proof.
  unfold ascending_hours. induction 1 as [| a l Hl IH Hall]; cbn [map].
  - constructor.
  - constructor; [exact IH |]. rewrite Forall_forall in *.
    intros h Hh. apply in_map_iff in Hh. destruct Hh as (y & <- & Hy).
    now apply Hall.
Qed.

Lemma find_best_hours_ascending (prices : list (Z * Q)) (hour_range : list Z)
    (kwh : Q) (hours : list Z) (avg : pyfloat) :
  ascending_hours prices ->
  find_best_consecutive_hours prices hour_range kwh = Ok (hours, avg) ->
  StronglySorted Z.le hours.
Proof.
  intros Hasc Hres.
  destruct (find_best_ok_window _ _ _ _ _ Hres) as (i & _ & _ & -> & _).
  apply map_fst_ascending, slice_ascending, filter_prices_ascending, Hasc.
Qed.

(** X6. On a series in ascending order of the hour, the hours returned are in
    ascending order too: a window is a run of the filtered series, not of the
    clock, and never runs from hour 23 on to hour 0. *)
Theorem best_hours_never_wrap (prices : list (Z * Q)) (hour_range : list Z)
    (kwh : Q) (hours : list Z) (avg : pyfloat) :
  ascending_hours prices ->
  find_best_consecutive_hours prices hour_range kwh = Ok (hours, avg) ->
  StronglySorted Z.le hours
  /\ forall before after, hours <> before ++ 23 :: 0 :: after.
Proof.
  intros Hasc Hres.
  pose proof (find_best_hours_ascending _ _ _ _ _ Hasc Hres) as Hsorted.
  split; [exact Hsorted |].
  intros before after Heq. rewrite Heq in Hsorted. clear Heq.
  induction before as [| b before IH]; cbn [app] in Hsorted.
  - inversion Hsorted as [| ? ? _ Hall]; subst.
    inversion Hall as [| ? ? Hle _]; subst. lia.
  - apply IH. now inversion Hsorted.
Qed.


Lemma int_mono (x y : Q) : (x <= y)%Q -> Py.int x <= Py.int y.
Proof.
  intros Hxy. unfold Py.int.
  destruct x as [n1 d1], y as [n2 d2]. unfold Qle in Hxy. cbn [Qnum Qden] in *.
  rewrite <- (Z.quot_mul_cancel_r n1 (Z.pos d1) (Z.pos d2)) by lia.
  rewrite <- (Z.quot_mul_cancel_r n2 (Z.pos d2) (Z.pos d1)) by lia.
  rewrite (Z.mul_comm (Z.pos d2) (Z.pos d1)).
  apply Z.quot_le_mono; lia.
Qed.

(** In an arithmetic whose rounding keeps the order, and where the charger
    power is positive, more energy never asks for fewer hours. *)
Lemma hours_needed_mono (kwh1 kwh2 : Q) :
  (forall x y, (x <= y)%Q -> (fl x <= fl y)%Q) ->
  (0 < fl charger_power_kw)%Q ->
  (kwh1 <= kwh2)%Q ->
  hours_needed_of kwh1 <= hours_needed_of kwh2.
Proof.
  intros Hmono Hpower Hle. unfold hours_needed_of.
  apply Z.max_le_compat_l, int_mono, Hmono.
  apply Qplus_le_l, Hmono.
  unfold Qdiv. apply Qmult_le_compat_r; [exact Hle |].
  apply Qlt_le_weak, Qinv_lt_0_compat, Hpower.
Qed.

End MoreSearch.

Lemma allowed_hours_as_a_set_witness :
  find_best_consecutive_hours (A := binary64) scenario_prices
    [22; 23; 0; 1; 2; 3; 4; 5; 6; 7] 14.8
  = find_best_consecutive_hours (A := binary64) scenario_prices
      [7; 7; 6; 5; 4; 3; 2; 1; 0; 23; 22; 22] 14.8.
Proof.
  apply (allowed_hours_as_a_set (A := binary64)).
  intros h. cbn [In]. intuition lia.
Defined.



Lemma best_hours_never_wrap_witness :
  exists hours avg,
    find_best_consecutive_hours (A := binary64) scenario_sorted
      (generate_hour_range 22 7) 74 = Ok (hours, avg)
    /\ StronglySorted Z.le hours
    /\ Py.len hours = 10.
Proof.
  assert (Hrun : exists r,
             find_best_consecutive_hours (A := binary64) scenario_sorted
               (generate_hour_range 22 7) 74 = Ok r)
    by (eexists; vm_compute; reflexivity).
  destruct Hrun as ([hours avg] & Hrun).
  exists hours, avg. split; [exact Hrun |].
  assert (Hasc : ascending_hours scenario_sorted)
    by apply sort_by_hour_ascending.
  destruct (best_hours_never_wrap (A := binary64) _ _ _ _ _ Hasc Hrun)
    as (Hsorted & _).
  split; [exact Hsorted |].
  pose proof Hrun as Hvalue. vm_compute in Hvalue. injection Hvalue as <- _.
  reflexivity.
Defined.

(** ** More of the two tools *)

Section MoreTools.

Context {A : arithmetic}.

Variable http_get : http_request -> http_outcome.
Variable today : string.
Variable fromisoformat_hour : string -> result Z.
Variable str_float : Q -> string.

(** [get_pvpc_prices], by cases on what the transport answers. *)
Lemma get_pvpc_prices_run (date : string) (log : list http_request) :
  get_pvpc_prices http_get date log
  = (match http_get (price_request date) with
     | TimeoutException => Raise (McpError "Timeout querying REE API")
     | RequestError text =>
         Raise (McpError ("Connection error with REE API: " ++ text))
     | Response status data =>
         if status =? 404 then Raise (McpError (no_price_data date))
         else if negb (status =? 200) then
           Raise (McpError ("REE API error: " ++ str_int status))
         else
           match included data with
           | None | Some [] => Raise (McpError (no_price_data date))
           | Some items =>
               match find is_pvpc_item items with
               | None => Raise (McpError (no_pvpc_data date))
               | Some it =>
                   match item_values it with
                   | None | Some [] => Raise (McpError (no_pvpc_data date))
                   | Some _ => Ok it
                   end
               end
           end
     end, log ++ [price_request date]).
Proof.
  unfold get_pvpc_prices, client_get. io_unfold. fold (price_request date).
  destruct (http_get (price_request date)) as [| text | status data];
    try reflexivity.
  destruct (status =? 404); [reflexivity |].
  destruct (negb (status =? 200)); [reflexivity |].
  destruct (included data) as [[| it items] |]; try reflexivity.
  destruct (find is_pvpc_item (it :: items)) as [sel |]; [| reflexivity].
  destruct (item_values sel) as [[| r rs] |]; reflexivity.
Qed.

Lemma get_pvpc_prices_ok (date : string) (log log' : list http_request)
    (it : item) :
  get_pvpc_prices http_get date log = (Ok it, log') ->
  log' = log ++ [price_request date]
  /\ exists data items readings,
      http_get (price_request date) = Response 200 data
      /\ included data = Some items /\ In it items
      /\ is_pvpc_item it = true
      /\ item_values it = Some readings /\ readings <> [].
Proof.
  rewrite get_pvpc_prices_run. intros H. injection H as H <-.
  split; [reflexivity |].
  destruct (http_get (price_request date)) as [| text | status data];
    try discriminate.
  destruct (Z.eqb_spec status 404); [discriminate |].
  destruct (Z.eqb_spec status 200) as [-> |]; [| discriminate].
  cbn [negb] in H.
  destruct (included data) as [[| first rest] |] eqn:Ei; try discriminate.
  destruct (find is_pvpc_item (first :: rest)) as [sel |] eqn:Ef;
    [| discriminate].
  destruct (item_values sel) as [[| r rs] |] eqn:Ev; try discriminate.
  injection H as <-. apply find_some in Ef. destruct Ef as [Hin Hsel].
  exists data, (first :: rest), (r :: rs).
  repeat split; try assumption; try reflexivity. discriminate.
Qed.


(** *** One request at most *)

Lemma tools_log (date : option string) (start_hour end_hour : Z)
    (kwh : Q) (log : list http_request) :
  let sent := match checked_date today date with
              | Ok d => [price_request d]
              | Raise _ => []
              end in
  snd (get_best_charging_hours http_get today fromisoformat_hour str_float
         date start_hour end_hour kwh log) = log ++ sent
  /\ snd (get_current_pvpc_prices http_get today fromisoformat_hour date log)
     = log ++ sent.
Proof.
  intros sent. subst sent.
  unfold get_best_charging_hours, get_current_pvpc_prices. io_unfold.
  destruct (checked_date today date) as [d |];
    [| split; cbn [snd]; now rewrite app_nil_r].
  pose proof (get_pvpc_prices_log http_get d log) as Hlog.
  destruct (get_pvpc_prices http_get d log) as [[data | e] log1].
  2:{ cbn [snd] in *. subst log1. split; reflexivity. }
  cbn [snd] in Hlog. subst log1.
  destruct (parse_hourly_prices fromisoformat_hour data) as [prices |];
    [| split; reflexivity].
  split.
  - destruct (find_best_consecutive_hours prices
                (generate_hour_range start_hour end_hour) kwh)
      as [[best_hours avg_price] |]; [| reflexivity].
    destruct (make_explanation str_float best_hours
                (map format_hour best_hours) kwh
                (float_mul_fin kwh avg_price) avg_price); reflexivity.
  - destruct (py_min (map snd prices)); [| reflexivity].
    destruct (py_max (map snd prices)); [| reflexivity].
    destruct (Py.truediv (Py.sum (map snd prices))
                (Py.len (map snd prices))); reflexivity.
Qed.

(** X9. Each tool sends no request when the date is rejected, and otherwise
    exactly one, for the date given or for today, whatever happens after it. *)
Theorem one_request_per_call (date : option string) (start_hour end_hour : Z)
    (kwh : Q) (log : list http_request) :
  let sent := match checked_date today date with
              | Ok d => [price_request d]
              | Raise _ => []
              end in
  snd (get_best_charging_hours http_get today fromisoformat_hour str_float
         date start_hour end_hour kwh log) = log ++ sent
  /\ snd (get_current_pvpc_prices http_get today fromisoformat_hour date log)
     = log ++ sent.
Proof. apply tools_log. Qed.

(** *** The parser *)

Lemma parse_readings_ok (values : list reading) (acc prices : list (Z * Q)) :
  for_each (parse_reading fromisoformat_hour) values acc = Ok prices ->
  exists hours,
    Forall2 (fun v h => fromisoformat_hour (replace_Z (datetime v)) = Ok h)
      values hours
    /\ prices
       = acc ++ combine hours
                  (map (fun v => fl (fl (value v) / 1000)%Q) values).
Proof.
  revert acc. induction values as [| v values IH]; intros acc; cbn [for_each].
  - intros [= <-]. exists []. split; [constructor |].
    cbn. now rewrite app_nil_r.
  - unfold parse_reading at 1.
    destruct (fromisoformat_hour (replace_Z (datetime v))) as [h |] eqn:Eh;
      cbn [rbind]; [| discriminate].
    intros H. apply IH in H. destruct H as (hours & Hall & ->).
    exists (h :: hours). split; [now constructor |].
    cbn [map combine]. rewrite <- app_assoc. reflexivity.
Qed.


Lemma insert_by_hour_filter (h : Z) (x : Z * Q) (l : list (Z * Q)) :
  filter (fun p => fst p =? h) (insert_by_hour x l)
  = filter (fun p => fst p =? h) (x :: l).
Proof.
  induction l as [| y l IH]; [reflexivity |].
  cbn [insert_by_hour].
  destruct (Z.leb_spec (fst x) (fst y)) as [Hle | Hgt]; [reflexivity |].
  cbn [filter] in *. rewrite IH.
  destruct (Z.eqb_spec (fst x) h) as [Hx |]; [| reflexivity].
  destruct (Z.eqb_spec (fst y) h) as [Hy |]; [lia | reflexivity].
Qed.

Lemma sort_by_hour_stable (h : Z) (prices : list (Z * Q)) :
  filter (fun p => fst p =? h) (sort_by_hour prices)
  = filter (fun p => fst p =? h) prices.
Proof.
  induction prices as [| x prices IH]; [reflexivity |].
  cbn [sort_by_hour fold_right]. fold (sort_by_hour prices).
  rewrite insert_by_hour_filter. cbn [filter]. now rewrite IH.
Qed.

Lemma parse_hourly_prices_facts (data : item) (prices : list (Z * Q)) :
  parse_hourly_prices fromisoformat_hour data = Ok prices ->
  exists values hours,
    item_values data = Some values
    /\ Forall2 (fun v h => fromisoformat_hour (replace_Z (datetime v)) = Ok h)
         values hours
    /\ prices
       = sort_by_hour
           (combine hours (map (fun v => fl (fl (value v) / 1000)%Q) values)).
Proof.
  unfold parse_hourly_prices. intros H.
  destruct (item_values data) as [values |]; [| discriminate].
  cbn [rbind] in H.
  destruct (for_each (parse_reading fromisoformat_hour) values [])
    as [parsed |] eqn:Ep; [| discriminate].
  injection H as <-. apply parse_readings_ok in Ep.
  destruct Ep as (hours & Hall & ->).
  exists values, hours. repeat split; assumption || reflexivity.
Qed.

Lemma Forall2_len {T U} (R : T -> U -> Prop) (l : list T) (m : list U) :
  Forall2 R l m -> List.length l = List.length m.
Proof. induction 1; cbn; congruence. Qed.

(** X10. The parser keeps every reading: the series returned is a
    rearrangement of the readings as pairs of the hour of the timestamp and
    the value divided by 1000, in ascending order of the hour, and readings of
    the same hour stay in the order of the payload. *)
Theorem parser_keeps_every_reading (data : item) (prices : list (Z * Q)) :
  parse_hourly_prices fromisoformat_hour data = Ok prices ->
  exists values hours,
    item_values data = Some values
    /\ Forall2 (fun v h => fromisoformat_hour (replace_Z (datetime v)) = Ok h)
         values hours
    /\ let parsed :=
         combine hours (map (fun v => fl (fl (value v) / 1000)%Q) values) in
       Permutation parsed prices
       /\ Py.len prices = Py.len values
       /\ ascending_hours prices
       /\ forall h, filter (fun p => fst p =? h) prices
                    = filter (fun p => fst p =? h) parsed.
Proof.
  intros H. destruct (parse_hourly_prices_facts _ _ H)
    as (values & hours & Hv & Hall & ->).
  exists values, hours. split; [exact Hv |]. split; [exact Hall |].
  cbv zeta. split; [apply sort_by_hour_perm |]. split; [| split].
  - unfold Py.len.
    rewrite <- (Permutation_length (sort_by_hour_perm _)).
    rewrite length_combine, length_map, (Forall2_len _ _ _ Hall). lia.
  - apply sort_by_hour_ascending.
  - intros h. apply sort_by_hour_stable.
Qed.



(** *** Where the tools can fail *)







(** *** What the tools return *)

Lemma recommendation_facts (given : option string) (start_hour end_hour : Z)
    (kwh : Q) (log log' : list http_request) (r : ChargingRecommendation) :
  get_best_charging_hours http_get today fromisoformat_hour str_float
    given start_hour end_hour kwh log = (Ok r, log') ->
  exists best_hours avg,
    recommended_hours r = map format_hour best_hours
    /\ StronglySorted Z.le best_hours
    /\ (forall h, In h best_hours ->
                  In h (generate_hour_range start_hour end_hour))
    /\ 1 <= Py.len best_hours <= hours_needed_of kwh
    /\ average_price_eur_kwh r = Fin (py_round avg 4)
    /\ total_cost_eur r = Fin (py_round (fl (kwh * avg)) 2)
    /\ query_date r = match given with Some d => d | None => today end
    /\ log' = log ++ [price_request (query_date r)].
Proof.
  intros Hrun.
  destruct (get_best_charging_hours_ok _ _ _ _ _ _ _ _ _ _ _ Hrun)
    as (d & data & prices & best_hours & avg_price & text
        & Hd & Hf & Hp & Hb & _ & ->).
  destruct (find_best_ok_nonempty _ _ _ _ _ Hb) as [_ [avg ->]].
  destruct (find_best_hours_facts _ _ _ _ _ Hb) as (Hin & Hlen & _).
  exists best_hours, avg. cbn [recommended_hours average_price_eur_kwh
    total_cost_eur query_date py_round_float float_mul_fin].
  split; [reflexivity |]. split.
  { eapply find_best_hours_ascending; [| exact Hb].
    eapply parse_hourly_prices_ascending, Hp. }
  split; [intros h Hh; now apply Hin |]. split; [exact Hlen |].
  split; [reflexivity |]. split; [reflexivity |].
  split; [apply (checked_date_valid _ _ _ Hd) |].
  apply (get_pvpc_prices_ok _ _ _ _ Hf).
Qed.

(** X13. A recommendation lists the hours of a window in ascending order, each
    an hour of the range asked for, between one and the number of hours the
    energy needs; its average is the mean of the window rounded to 4 decimals,
    and its cost is the energy times the unrounded mean, rounded to 2
    decimals; its date is the date given, or today; and the one request sent
    was for that date. *)
Theorem recommendation_shape (given : option string) (start_hour end_hour : Z)
    (kwh : Q) (log log' : list http_request) (r : ChargingRecommendation) :
  get_best_charging_hours http_get today fromisoformat_hour str_float
    given start_hour end_hour kwh log = (Ok r, log') ->
  exists best_hours avg,
    recommended_hours r = map format_hour best_hours
    /\ StronglySorted Z.le best_hours
    /\ (forall h, In h best_hours ->
                  In h (generate_hour_range start_hour end_hour))
    /\ 1 <= Py.len best_hours <= hours_needed_of kwh
    /\ average_price_eur_kwh r = Fin (py_round avg 4)
    /\ total_cost_eur r = Fin (py_round (fl (kwh * avg)) 2)
    /\ query_date r = match given with Some d => d | None => today end
    /\ log' = log ++ [price_request (query_date r)].
Proof. apply recommendation_facts. Qed.

(** A successful call of [get_current_pvpc_prices], step by step, in any
    arithmetic. *)
Lemma get_current_pvpc_prices_steps (given : option string)
    (log log' : list http_request) (summary : PVPCData) :
  get_current_pvpc_prices http_get today fromisoformat_hour given log
  = (Ok summary, log') ->
  exists d data prices lowest highest mean,
    checked_date today given = Ok d
    /\ get_pvpc_prices http_get d log = (Ok data, log')
    /\ parse_hourly_prices fromisoformat_hour data = Ok prices
    /\ py_min (map snd prices) = Ok lowest
    /\ py_max (map snd prices) = Ok highest
    /\ Py.truediv (Py.sum (map snd prices)) (Py.len (map snd prices)) = Ok mean
    /\ summary
       = {| date := d;
            hourly_prices :=
              map (fun hp => {| hour := format_hour (fst hp);
                                price_eur_kwh := py_round (snd hp) 4 |}) prices;
            min_price := py_round lowest 4;
            max_price := py_round highest 4;
            average_price := py_round mean 4 |}.
Proof.
  unfold get_current_pvpc_prices. io_unfold. intros H.
  destruct (checked_date today given) as [d |] eqn:Hd; [| discriminate].
  destruct (get_pvpc_prices http_get d log) as [[data |] log1] eqn:Hf;
    [| discriminate].
  destruct (parse_hourly_prices fromisoformat_hour data) as [prices |] eqn:Hp;
    [| discriminate].
  destruct (py_min (map snd prices)) as [lowest |] eqn:Hmin; [| discriminate].
  destruct (py_max (map snd prices)) as [highest |] eqn:Hmax; [| discriminate].
  destruct (Py.truediv (Py.sum (map snd prices)) (Py.len (map snd prices)))
    as [mean |] eqn:Hmean; [| discriminate].
  injection H as <- <-.
  exists d, data, prices, lowest, highest, mean.
  repeat split; assumption.
Qed.

(** X14. A summary lists one price for each reading of the entry fetched,
    under hours in ascending order; its minimum and its maximum are two of the
    prices it lists; its date is the date given, or today; and the one request
    sent was for that date. *)
Theorem summary_shape (given : option string) (log log' : list http_request)
    (summary : PVPCData) :
  get_current_pvpc_prices http_get today fromisoformat_hour given log
  = (Ok summary, log') ->
  exists data readings hours,
    get_pvpc_prices http_get (date summary) log = (Ok data, log')
    /\ item_values data = Some readings
    /\ List.length (hourly_prices summary) = List.length readings
    /\ map hour (hourly_prices summary) = map format_hour hours
    /\ StronglySorted Z.le hours
    /\ In (min_price summary) (map price_eur_kwh (hourly_prices summary))
    /\ In (max_price summary) (map price_eur_kwh (hourly_prices summary))
    /\ date summary = match given with Some d => d | None => today end
    /\ log' = log ++ [price_request (date summary)].
Proof.
  intros Hrun.
  destruct (get_current_pvpc_prices_steps _ _ _ _ Hrun)
    as (d & data & prices & lowest & highest & mean
        & Hd & Hf & Hp & Hmin & Hmax & _ & ->).
  cbn [date hourly_prices min_price max_price].
  destruct (parse_hourly_prices_facts _ _ Hp)
    as (values & hours & Hv & Hall & Hprices).
  exists data, values, (map fst prices).
  split; [exact Hf |]. split; [exact Hv |]. split.
  { rewrite length_map, Hprices.
    rewrite <- (Permutation_length (sort_by_hour_perm _)).
    rewrite length_combine, length_map, (Forall2_len _ _ _ Hall).
    apply Nat.min_id. }
  split; [now rewrite !map_map |]. split.
  { apply map_fst_ascending. eapply parse_hourly_prices_ascending, Hp. }
  rewrite map_map. cbn [price_eur_kwh].
  split.
  { apply py_min_spec in Hmin. destruct Hmin as [Hin _].
    apply in_map_iff in Hin. destruct Hin as (hp & <- & Hhp).
    apply in_map_iff. now exists hp. }
  split.
  { apply py_max_spec in Hmax. destruct Hmax as [Hin _].
    apply in_map_iff in Hin. destruct Hin as (hp & <- & Hhp).
    apply in_map_iff. now exists hp. }
  split; [apply (checked_date_valid _ _ _ Hd) |].
  apply (get_pvpc_prices_ok _ _ _ _ Hf).
Qed.

End MoreTools.

(** ** The gateway *)

Section MoreGateway.

Context {A : arithmetic}.

Variable http_get : http_request -> http_outcome.
Variable today : string.
Variable fromisoformat_hour : string -> result Z.
Variable str_float : Q -> string.
Variable dumps_recommendation : ChargingRecommendation -> string.
Variable dumps_prices : PVPCData -> string.
Variable str_builtin : exn -> string.

(** X15. A name that is neither of the two tools is answered with the text
    "Error in charging advisor: Unknown tool: " and the name, and no request
    is sent. *)
Theorem unknown_tool_is_reported (name : string) (arguments : tool_arguments)
    (log : list http_request) :
  name <> GET_BEST_CHARGING_HOURS ->
  name <> GET_CURRENT_PVPC_PRICES ->
  call_tool http_get today fromisoformat_hour str_float dumps_recommendation
    dumps_prices str_builtin name arguments log
  = ([(ERROR_PREFIX ++ "Unknown tool: " ++ name)%string], log).
Proof.
  intros H1 H2. unfold call_tool, dispatch.
  apply String.eqb_neq in H1. apply String.eqb_neq in H2.
  rewrite H1, H2. reflexivity.
Qed.

Lemma known_tool (name : string) :
  In name (map tool_name list_tools)
  <-> name = GET_BEST_CHARGING_HOURS \/ name = GET_CURRENT_PVPC_PRICES.
Proof. cbn. intuition congruence. Qed.

(** X16. A call returns exactly one text, and sends one request, for the date
    given or for today, when the name is one of the tools listed and the date
    is accepted; otherwise it sends none. *)
Theorem call_tool_one_text (name : string) (arguments : tool_arguments)
    (log : list http_request) :
  let answer :=
    call_tool http_get today fromisoformat_hour str_float dumps_recommendation
      dumps_prices str_builtin name arguments log in
  (exists text, fst answer = [text])
  /\ ((In name (map tool_name list_tools)
       /\ exists d, checked_date today (arg_date arguments) = Ok d
                    /\ snd answer = log ++ [price_request d])
      \/ ((~ In name (map tool_name list_tools)
           \/ checked_date today (arg_date arguments) = Raise InvalidDateError)
          /\ snd answer = log)).
Proof.
  intros answer. subst answer. unfold call_tool. split.
  - destruct (dispatch _ _ _ _ _ _ _ _ _) as [[text | e] log'];
      eexists; reflexivity.
  - assert (Hbad : forall e,
               checked_date today (arg_date arguments) = Raise e ->
               checked_date today (arg_date arguments) = Raise InvalidDateError).
    { unfold checked_date. destruct (strptime_Ymd _); [discriminate |].
      reflexivity. }
    unfold dispatch, io_bind.
    destruct (String.eqb_spec name GET_BEST_CHARGING_HOURS) as [-> | H1].
    + pose proof (proj1 (tools_log http_get today fromisoformat_hour str_float
                           (arg_date arguments)
                           (get_or (arg_start_hour arguments) 22)
                           (get_or (arg_end_hour arguments) 7)
                           (get_or (arg_kwh arguments) (fl 10)) log)) as Hlog.
      cbv zeta in Hlog.
      destruct (get_best_charging_hours _ _ _ _ _ _ _ _ _) as [[r | e] log'];
        cbn [snd fst] in *; subst log';
        (destruct (checked_date today (arg_date arguments)) as [d | e'] eqn:Hd;
         [left; split; [apply known_tool; now left | now exists d]
         | right; split; [right; now apply (Hbad e') | apply app_nil_r]]).
    + destruct (String.eqb_spec name GET_CURRENT_PVPC_PRICES) as [-> | H2].
      * pose proof (proj2 (tools_log http_get today fromisoformat_hour str_float
                             (arg_date arguments) 0 0 0 log)) as Hlog.
        cbv zeta in Hlog.
        destruct (get_current_pvpc_prices _ _ _ _ _) as [[r | e] log'];
          cbn [snd fst] in *; subst log';
          (destruct (checked_date today (arg_date arguments)) as [d | e'] eqn:Hd;
           [left; split; [apply known_tool; now right | now exists d]
           | right; split; [right; now apply (Hbad e') | apply app_nil_r]]).
      * right. split; [| reflexivity]. left. intros Hin.
        apply known_tool in Hin. tauto.
Qed.

(** X17. A date that [strptime] rejects is answered by both tools with the
    text "Error in charging advisor: Invalid date format. Use YYYY-MM-DD", and
    no request is sent. *)
Theorem call_tool_rejected_date (name : string) (arguments : tool_arguments)
    (d : string) (log : list http_request) :
  In name (map tool_name list_tools) ->
  arg_date arguments = Some d ->
  (exists e, strptime_Ymd d = Raise e) ->
  call_tool http_get today fromisoformat_hour str_float dumps_recommendation
    dumps_prices str_builtin name arguments log
  = ([(ERROR_PREFIX ++ INVALID_DATE)%string], log).
Proof.
  intros Hname Hdate Hbad. apply known_tool in Hname.
  destruct (rejected_date_no_fetch http_get today fromisoformat_hour str_float
              d (get_or (arg_start_hour arguments) 22)
              (get_or (arg_end_hour arguments) 7)
              (get_or (arg_kwh arguments) (fl 10)) log Hbad) as [Hbest Hcur].
  unfold call_tool, dispatch, io_bind. rewrite Hdate.
  destruct Hname as [-> | ->].
  - cbn [String.eqb]. rewrite String.eqb_refl, Hbest. reflexivity.
  - destruct (String.eqb_spec GET_CURRENT_PVPC_PRICES GET_BEST_CHARGING_HOURS)
      as [Heq |]; [discriminate Heq |].
    rewrite String.eqb_refl, Hcur. reflexivity.
Qed.

(** X18. When the fetch fails, both tools answer with the text "Error in
    charging advisor: " and the message of the failure, after the one request. *)
Theorem call_tool_reports_fetch_error (name : string)
    (arguments : tool_arguments) (d message : string)
    (log : list http_request) :
  In name (map tool_name list_tools) ->
  checked_date today (arg_date arguments) = Ok d ->
  fst (get_pvpc_prices http_get d log) = Raise (McpError message) ->
  call_tool http_get today fromisoformat_hour str_float dumps_recommendation
    dumps_prices str_builtin name arguments log
  = ([(ERROR_PREFIX ++ message)%string], log ++ [price_request d]).
Proof.
  intros Hname Hd Hfetch. apply known_tool in Hname.
  pose proof (get_pvpc_prices_log http_get d log) as Hlog.
  destruct (get_pvpc_prices http_get d log) as [r log1] eqn:Hf.
  cbn [fst snd] in *. subst r log1.
  unfold call_tool, dispatch.
  destruct Hname as [-> | ->].
  - rewrite String.eqb_refl.
    unfold get_best_charging_hours. io_unfold. rewrite Hd, Hf. reflexivity.
  - destruct (String.eqb_spec GET_CURRENT_PVPC_PRICES GET_BEST_CHARGING_HOURS)
      as [Heq |]; [discriminate Heq |].
    rewrite String.eqb_refl.
    unfold get_current_pvpc_prices. io_unfold. rewrite Hd, Hf. reflexivity.
Qed.

(** X19. A call with keys left out is the call with the defaults written out:
    the date of today, the hours 22 and 7, and 10.0 kWh. *)
Theorem absent_arguments_take_defaults (name : string)
    (arguments : tool_arguments) (log : list http_request) :
  call_tool http_get today fromisoformat_hour str_float dumps_recommendation
    dumps_prices str_builtin name arguments log
  = call_tool http_get today fromisoformat_hour str_float dumps_recommendation
      dumps_prices str_builtin name
      {| arg_date := Some (get_or (arg_date arguments) today);
         arg_start_hour := Some (get_or (arg_start_hour arguments) 22);
         arg_end_hour := Some (get_or (arg_end_hour arguments) 7);
         arg_kwh := Some (get_or (arg_kwh arguments) (fl 10)) |} log.
Proof.
  unfold call_tool, dispatch.
  cbn [arg_date arg_start_hour arg_end_hour arg_kwh get_or].
  destruct (arg_date arguments) as [d |]; reflexivity.
Qed.

End MoreGateway.

(** ** The dates that pass *)











Lemma days_in_month_bounds (year month : Z) :
  28 <= days_in_month year month <= 31.
Proof.
  unfold days_in_month.
  destruct (month =? 2); [destruct (is_leap year); lia |].
  destruct ((month =? 4) || (month =? 6) || (month =? 9) || (month =? 11));
    lia.
Qed.




(** ** Rounding to a double keeps the order *)

Lemma two_pow_pos (k : Z) : (0 < 2 ^ k)%Q.
Proof. apply Qpower_0_lt. reflexivity. Qed.

Lemma two_pow_succ (k : Z) : (2 ^ (k + 1) == 2 * 2 ^ k)%Q.
Proof.
  rewrite Qpower_plus by discriminate. rewrite Qpower_1_r. ring.
Qed.

Lemma two_pow_inject (k : Z) : 0 <= k -> (inject_Z (2 ^ k) == 2 ^ k)%Q.
Proof. intros Hk. now rewrite Zpower_Qpower. Qed.

(** [Qlog2] is the exponent of the binade: [2 ^ Qlog2 x <= x < 2 ^ (Qlog2 x + 1)]. *)
Lemma Qlog2_spec (x : Q) :
  (0 < x)%Q -> (2 ^ Qlog2 x <= x /\ x < 2 ^ (Qlog2 x + 1))%Q.
Proof.
  intros Hx. destruct x as [n d].
  assert (Hn : 0 < n) by (unfold Qlt in Hx; cbn in Hx; lia).
  unfold Qlog2. cbn [Qnum Qden].
  set (a := Z.log2 n). set (b := Z.log2 (Z.pos d)).
  destruct (Z.log2_spec n Hn) as [Ha1 Ha2]. fold a in Ha1, Ha2.
  destruct (Z.log2_spec (Z.pos d) ltac:(lia)) as [Hb1 Hb2]. fold b in Hb1, Hb2.
  assert (Ha0 : 0 <= a) by apply Z.log2_nonneg.
  assert (Hb0 : 0 <= b) by apply Z.log2_nonneg.
  rewrite Zle_Qle, two_pow_inject in Ha1, Hb1 by lia.
  rewrite Zlt_Qlt, two_pow_inject in Ha2, Hb2 by lia.
  unfold Z.succ in Ha2, Hb2. rewrite two_pow_succ in Ha2, Hb2.
  pose proof (two_pow_pos a) as HA. pose proof (two_pow_pos b) as HB.
  assert (Hk : (2 ^ (a - b) * 2 ^ b == 2 ^ a)%Q).
  { rewrite <- Qpower_plus by discriminate.
    now replace (a - b + b) with a by lia. }
  pose proof (two_pow_pos (a - b)) as HK.
  assert (Hxq : ((n # d) * inject_Z (Z.pos d) == inject_Z n)%Q).
  { unfold Qeq, inject_Z. cbn. lia. }
  set (x := n # d) in *.
  set (N := inject_Z n) in *. set (D := inject_Z (Z.pos d)) in *.
  set (P := (2 ^ a)%Q) in *. set (B := (2 ^ b)%Q) in *.
  set (K := (2 ^ (a - b))%Q) in *.
  assert (Hup : (x < 2 * K)%Q).
  { apply Qnot_le_lt. intros Hc. nra. }
  destruct (Qle_bool K x) eqn:E.
  - apply Qle_bool_iff in E. split; [exact E |].
    rewrite two_pow_succ. exact Hup.
  - assert (Hlt : (x < K)%Q).
    { apply Qnot_le_lt. intros Hc. apply Qle_bool_iff in Hc. congruence. }
    replace (a - b - 1 + 1) with (a - b) by lia.
    split; [| exact Hlt].
    assert (Hk1 : (2 * 2 ^ (a - b - 1) == K)%Q).
    { rewrite <- two_pow_succ. subst K.
      now replace (a - b - 1 + 1) with (a - b) by lia. }
    pose proof (two_pow_pos (a - b - 1)) as HK1.
    set (K1 := (2 ^ (a - b - 1))%Q) in *.
    apply Qnot_lt_le. intros Hc. nra.
Qed.

Lemma Qlog2_mono (x y : Q) : (0 < x)%Q -> (x <= y)%Q -> Qlog2 x <= Qlog2 y.
Proof.
  intros Hx Hxy.
  destruct (Qlog2_spec x Hx) as [Hx1 _].
  destruct (Qlog2_spec y ltac:(lra)) as [_ Hy2].
  assert (H : (2 ^ Qlog2 x < 2 ^ (Qlog2 y + 1))%Q) by lra.
  apply Qpower_lt_compat_l_inv in H; [lia | reflexivity].
Qed.

Lemma round_half_even_Z (n : Z) : round_half_even (inject_Z n) = n.
Proof.
  unfold round_half_even. rewrite Qfloor_Z.
  destruct (Qcompare_spec (inject_Z n - inject_Z n) (1 # 2)) as [H | H | H];
    try reflexivity; exfalso; lra.
Qed.

Lemma round_half_even_nonneg (x : Q) : (0 <= x)%Q -> 0 <= round_half_even x.
Proof.
  intros Hx. rewrite <- (round_half_even_Z 0).
  now apply round_half_even_mono.
Qed.

(** The magnitude of the double nearest to a positive number grows with the
    number: within a binade by the rounding of the significand, and from
    one binade to a later one across the power of two between them. *)
Lemma round_magnitude_mono (x y : Q) :
  (0 < x)%Q -> (x <= y)%Q ->
  let ex := Z.max (-1074) (Qlog2 x - 52) in
  let ey := Z.max (-1074) (Qlog2 y - 52) in
  (inject_Z (round_half_even (x / 2 ^ ex)) * 2 ^ ex
   <= inject_Z (round_half_even (y / 2 ^ ey)) * 2 ^ ey)%Q.
Proof.
  intros Hx Hxy ex ey.
  assert (Hy : (0 < y)%Q) by lra.
  pose proof (Qlog2_mono x y Hx Hxy) as Hlog.
  pose proof (two_pow_pos ex) as Pex. pose proof (two_pow_pos ey) as Pey.
  destruct (Z.eq_dec ex ey) as [Heq | Hne].
  - rewrite <- Heq. apply Qmult_le_compat_r; [| lra].
    rewrite <- Zle_Qle. apply round_half_even_mono.
    apply Qmult_le_compat_r; [exact Hxy |].
    apply Qlt_le_weak, Qinv_lt_0_compat, Pex.
  - assert (Hey : ey = Qlog2 y - 52 /\ ex < ey) by lia.
    destruct Hey as [Hey Hlt].
    assert (Hstep : Qlog2 x + 1 <= Qlog2 y) by lia.
    destruct (Qlog2_spec x Hx) as [_ Hx2].
    destruct (Qlog2_spec y Hy) as [Hy1 _].
    apply Qle_trans with (2 ^ Qlog2 y)%Q.
    + assert (Hd : 0 <= Qlog2 y - ex) by lia.
      assert (Hsplit : (2 ^ Qlog2 y
                        == inject_Z (2 ^ (Qlog2 y - ex)) * 2 ^ ex)%Q).
      { rewrite two_pow_inject by exact Hd.
        rewrite <- Qpower_plus by discriminate.
        now replace (Qlog2 y - ex + ex) with (Qlog2 y) by lia. }
      rewrite Hsplit. apply Qmult_le_compat_r; [| lra].
      rewrite <- Zle_Qle.
      rewrite <- (round_half_even_Z (2 ^ (Qlog2 y - ex))).
      apply round_half_even_mono.
      apply Qle_shift_div_r; [exact Pex |]. rewrite <- Hsplit.
      apply Qle_trans with (2 ^ (Qlog2 x + 1))%Q; [lra |].
      apply Qpower_le_compat_l; [exact Hstep | discriminate].
    + assert (Hsplit : (2 ^ Qlog2 y == inject_Z (2 ^ 52) * 2 ^ ey)%Q).
      { rewrite two_pow_inject by lia.
        rewrite <- Qpower_plus by discriminate.
        now replace (52 + ey) with (Qlog2 y) by lia. }
      rewrite Hsplit at 1. apply Qmult_le_compat_r; [| lra].
      rewrite <- Zle_Qle.
      rewrite <- (round_half_even_Z (2 ^ 52)).
      apply round_half_even_mono.
      apply Qle_shift_div_l; [exact Pey |]. rewrite <- Hsplit. exact Hy1.
Qed.

Lemma binary64_round_sign (x : Q) :
  ((0 <= x)%Q -> (0 <= binary64_round x)%Q)
  /\ ((x <= 0)%Q -> (binary64_round x <= 0)%Q).
Proof.
  unfold binary64_round.
  destruct (Qeq_bool x 0) eqn:E0; [split; intros; apply Qle_refl |].
  apply Qeq_bool_neq in E0.
  set (e := Z.max (-1074) (Qlog2 (Qabs x) - 52)).
  pose proof (two_pow_pos e) as Pe.
  assert (Hm : (0 <= inject_Z (round_half_even (Qabs x / 2 ^ e)) * 2 ^ e)%Q).
  { apply Qmult_le_0_compat; [| lra].
    change 0%Q with (inject_Z 0). rewrite <- Zle_Qle.
    apply round_half_even_nonneg.
    apply Qle_shift_div_l; [exact Pe |]. rewrite Qmult_0_l. apply Qabs_nonneg. }
  rewrite Qred_correct.
  destruct (Qltb x 0) eqn:El.
  - apply Qltb_lt in El. split; intros; lra.
  - apply Qltb_ge in El. split; intros; lra.
Qed.

Lemma Qabs_pos_eq (x : Q) : (0 <= x)%Q -> Qabs x = x.
Proof.
  destruct x as [n d]. unfold Qle. cbn. intros H.
  f_equal. apply Z.abs_eq. lia.
Qed.

Lemma Qabs_neg_eq (x : Q) : (x <= 0)%Q -> Qabs x = (- x)%Q.
Proof.
  destruct x as [n d]. unfold Qle. cbn. intros H.
  unfold Qopp. cbn. f_equal. apply Z.abs_neq. lia.
Qed.

(** Rounding to the nearest double keeps the order of the numbers. *)
Lemma binary64_round_mono (x y : Q) :
  (x <= y)%Q -> (binary64_round x <= binary64_round y)%Q.
Proof.
  intros Hxy.
  destruct (Qlt_le_dec 0 x) as [Hx | Hx].
  - unfold binary64_round.
    assert (Hy : (0 < y)%Q) by lra.
    destruct (Qeq_bool x 0) eqn:Ex; [apply Qeq_bool_iff in Ex; lra |].
    destruct (Qeq_bool y 0) eqn:Ey; [apply Qeq_bool_iff in Ey; lra |].
    destruct (Qltb x 0) eqn:Lx; [apply Qltb_lt in Lx; lra |].
    destruct (Qltb y 0) eqn:Ly; [apply Qltb_lt in Ly; lra |].
    rewrite !Qred_correct.
    cbv zeta. rewrite (Qabs_pos_eq x), (Qabs_pos_eq y) by lra.
    now apply round_magnitude_mono.
  - destruct (Qlt_le_dec y 0) as [Hy | Hy].
    + unfold binary64_round.
      destruct (Qeq_bool x 0) eqn:Ex; [apply Qeq_bool_iff in Ex; lra |].
      destruct (Qeq_bool y 0) eqn:Ey; [apply Qeq_bool_iff in Ey; lra |].
      destruct (Qltb x 0) eqn:Lx; [| apply Qltb_ge in Lx; lra].
      destruct (Qltb y 0) eqn:Ly; [| apply Qltb_ge in Ly; lra].
      rewrite !Qred_correct. cbv zeta.
      rewrite (Qabs_neg_eq x), (Qabs_neg_eq y) by lra.
      apply Qopp_le_compat.
      apply round_magnitude_mono; lra.
    + apply Qle_trans with 0%Q.
      * now apply binary64_round_sign.
      * now apply binary64_round_sign.
Qed.

(** In each of the three arithmetics an operation keeps the order of its
    real results. *)
Lemma rounding_keeps_order (A : arithmetic) :
  In A arithmetics -> forall x y, (x <= y)%Q -> (fl x <= fl y)%Q.
Proof.
  unfold arithmetics. cbn [In].
  intros [<- | [<- | [<- | []]]] x y Hxy; cbn [fl exact binary64
    binary64_compensated]; try exact Hxy; now apply binary64_round_mono.
Qed.

Lemma charger_power_positive (A : arithmetic) :
  In A arithmetics -> (0 < fl charger_power_kw)%Q.
Proof.
  unfold arithmetics. cbn [In].
  intros [<- | [<- | [<- | []]]]; vm_compute; reflexivity.
Qed.

Lemma py_round_keeps_order {A : arithmetic} (x y : Q) (n : nat) :
  (forall a b, (a <= b)%Q -> (fl a <= fl b)%Q) ->
  (x <= y)%Q -> (py_round x n <= py_round y n)%Q.
Proof.
  intros Hmono Hxy. unfold py_round. apply Hmono.
  pose proof (pow10_pos n) as Hp.
  apply Qmult_le_compat_r; [| apply Qlt_le_weak, Qinv_lt_0_compat, Hp].
  rewrite <- Zle_Qle. apply round_half_even_mono.
  apply Qmult_le_compat_r; [exact Hxy | lra].
Qed.

(** ** The energy and the hours *)

(** X21. In each of the three arithmetics, more energy never asks for fewer
    hours, and no energy, or a negative one, asks for one hour. *)
Theorem more_energy_not_fewer_hours (A : arithmetic) (kwh1 kwh2 : Q) :
  In A arithmetics ->
  (kwh1 <= kwh2)%Q ->
  hours_needed_of kwh1 <= hours_needed_of kwh2
  /\ ((kwh2 <= 0)%Q -> hours_needed_of kwh2 = 1).
Proof.
  intros HA Hle. split.
  - apply hours_needed_mono;
      [apply rounding_keeps_order, HA | apply charger_power_positive, HA
      | exact Hle].
  - intros H0.
    assert (Hone : hours_needed_of (A := A) 0 = 1).
    { revert HA. unfold arithmetics. cbn [In].
      intros [<- | [<- | [<- | []]]]; vm_compute; reflexivity. }
    pose proof (hours_needed_mono kwh2 0 (rounding_keeps_order A HA)
                  (charger_power_positive A HA) H0) as Hup.
    pose proof (hours_needed_ge_1 (A := A) kwh2). lia.
Qed.

Lemma admitted_bounds (key : string) (x : Q) :
  admitted key x ->
  (key = "start_hour"%string /\ (0 <= x <= 23)%Q)
  \/ (key = "end_hour"%string /\ (0 <= x <= 23)%Q)
  \/ (key = "kwh"%string /\ (0.1 <= x <= 100)%Q).
Proof.
  intros (tool & p & lo & hi & Htool & Hname & Hkey & Hlo & Hhi & Hx).
  cbn [list_tools In] in Htool.
  destruct Htool as [<- | [<- | []]]; [| discriminate Hname].
  cbn [properties In] in Hkey.
  destruct Hkey as [Hk | [Hk | [Hk | [Hk | []]]]];
    injection Hk as <- <-; cbn in Hlo, Hhi; try discriminate;
    injection Hlo as <-; injection Hhi as <-;
    first [ left; split; [reflexivity | lra]
          | right; left; split; [reflexivity | lra]
          | right; right; split; [reflexivity | lra] ].
Qed.

Lemma hour_labels (h : Z) :
  0 <= h <= 23 -> In (format_hour h) (map format_hour (Py.range 0 24)).
Proof. intros Hh. apply in_map, range_In. lia. Qed.

Section WithinSchema.

Variable A : arithmetic.
Hypothesis arithmetic_listed : In A arithmetics.

Variable http_get : http_request -> http_outcome.
Variable today : string.
Variable fromisoformat_hour : string -> result Z.
Variable str_float : Q -> string.

Lemma energy_hours_bound (kwh : Q) :
  admitted "kwh" kwh -> 1 <= hours_needed_of (A := A) kwh <= 14.
Proof.
  intros Hkwh. apply admitted_bounds in Hkwh.
  destruct Hkwh as [[Hk _] | [[Hk _] | [_ Hx]]]; try discriminate Hk.
  split; [apply hours_needed_ge_1 |].
  assert (Htop : hours_needed_of (A := A) 100 = 14).
  { revert arithmetic_listed. unfold arithmetics. cbn [In].
    intros [<- | [<- | [<- | []]]]; vm_compute; reflexivity. }
  rewrite <- Htop.
  apply hours_needed_mono;
    [now apply rounding_keeps_order | now apply charger_power_positive | lra].
Qed.

(** X22. For an energy that the schema admits, from 0.1 to 100 kWh, between 1
    and 14 hours are needed. *)
Theorem admitted_energy_hours (kwh : Q) :
  admitted "kwh" kwh -> 1 <= hours_needed_of (A := A) kwh <= 14.
Proof. apply energy_hours_bound. Qed.

(** X23. For arguments that the schema admits, a recommendation lists between
    1 and 14 hours, each one of the 24 labels from "00:00" to "23:00", in
    ascending order of the hour. *)
Theorem recommendation_within_schema (given : option string)
    (start_hour end_hour : Z) (kwh : Q) (log log' : list http_request)
    (r : ChargingRecommendation) :
  admitted "start_hour" (inject_Z start_hour) ->
  admitted "end_hour" (inject_Z end_hour) ->
  admitted "kwh" kwh ->
  get_best_charging_hours (A := A) http_get today fromisoformat_hour str_float
    given start_hour end_hour kwh log = (Ok r, log') ->
  exists best_hours,
    recommended_hours r = map format_hour best_hours
    /\ StronglySorted Z.le best_hours
    /\ Forall (fun h => 0 <= h <= 23) best_hours
    /\ Forall (fun label => In label (map format_hour (Py.range 0 24)))
         (recommended_hours r)
    /\ 1 <= Py.len best_hours <= 14.
Proof.
  intros Hs He Hkwh Hrun.
  pose proof (energy_hours_bound kwh Hkwh) as Hn.
  apply admitted_bounds in Hs. apply admitted_bounds in He.
  destruct Hs as [[_ Hs] | [[Hk _] | [Hk _]]]; try discriminate Hk.
  destruct He as [[Hk _] | [[_ He] | [Hk _]]]; try discriminate Hk.
  change 0%Q with (inject_Z 0) in Hs, He.
  change 23%Q with (inject_Z 23) in Hs, He.
  rewrite <- !Zle_Qle in Hs, He.
  destruct (recommendation_facts http_get today fromisoformat_hour str_float
              given start_hour end_hour kwh log log' r Hrun)
    as (best_hours & avg & Hrec & Hsorted & Hin & Hlen & _).
  exists best_hours.
  assert (Hrange : Forall (fun h => 0 <= h <= 23) best_hours).
  { apply Forall_forall. intros h Hh. apply Hin in Hh.
    apply hour_range_In in Hh. lia. }
  split; [exact Hrec |]. split; [exact Hsorted |]. split; [exact Hrange |].
  split; [| lia].
  rewrite Hrec. apply Forall_forall. intros label Hl.
  apply in_map_iff in Hl. destruct Hl as (h & <- & Hh).
  rewrite Forall_forall in Hrange. apply hour_labels. now apply Hrange.
Qed.

(** X24. In every summary the minimum is at most each price listed, and each
    price listed at most the maximum. *)
Theorem summary_extremes_bound_prices (given : option string)
    (log log' : list http_request) (summary : PVPCData) :
  get_current_pvpc_prices (A := A) http_get today fromisoformat_hour given log
  = (Ok summary, log') ->
  Forall (fun listed =>
            (min_price summary <= price_eur_kwh listed
             /\ price_eur_kwh listed <= max_price summary)%Q)
    (hourly_prices summary).
Proof.
  intros Hrun.
  destruct (get_current_pvpc_prices_steps _ _ _ _ _ _ _ Hrun)
    as (d & data & prices & lowest & highest & mean
        & _ & _ & _ & Hmin & Hmax & _ & ->).
  cbn [hourly_prices min_price max_price].
  apply py_min_spec in Hmin. apply py_max_spec in Hmax.
  apply Forall_forall. intros listed Hl.
  apply in_map_iff in Hl. destruct Hl as (hp & <- & Hhp).
  cbn [price_eur_kwh].
  pose proof (rounding_keeps_order A arithmetic_listed) as Hmono.
  split; apply py_round_keeps_order; try exact Hmono.
  - apply Hmin. now apply in_map.
  - apply Hmax. now apply in_map.
Qed.

End WithinSchema.

(** ** The properties above on the sample transport *)

Lemma more_energy_not_fewer_hours_witness :
  In binary64 arithmetics
  /\ (11.1 <= 14.8)%Q
  /\ hours_needed_of (A := binary64) 11.1 <= hours_needed_of (A := binary64) 14.8.
Proof.
  assert (HA : In binary64 arithmetics) by (right; left; reflexivity).
  assert (Hle : (11.1 <= 14.8)%Q) by (vm_compute; discriminate).
  split; [exact HA |]. split; [exact Hle |].
  exact (proj1 (more_energy_not_fewer_hours binary64 11.1 14.8 HA Hle)).
Defined.

Lemma parser_keeps_every_reading_witness :
  exists prices,
    parse_hourly_prices (A := binary64) Sample.hour_of_timestamp
      (Sample.pvpc_item scenario_prices) = Ok prices
    /\ Py.len prices = 10
    /\ ascending_hours prices.
Proof.
  assert (Hrun : exists prices,
             parse_hourly_prices (A := binary64) Sample.hour_of_timestamp
               (Sample.pvpc_item scenario_prices) = Ok prices)
    by (eexists; vm_compute; reflexivity).
  destruct Hrun as [prices Hrun]. exists prices. split; [exact Hrun |].
  destruct (parser_keeps_every_reading (A := binary64)
              Sample.hour_of_timestamp _ _ Hrun)
    as (values & hours & Hv & _ & _ & Hlen & Hasc & _).
  split; [| exact Hasc].
  rewrite Hlen. cbn [Sample.pvpc_item item_values] in Hv.
  injection Hv as <-. reflexivity.
Defined.



Lemma recommendation_shape_witness :
  exists r best_hours,
    Sample.best_hours (A := binary64) [Sample.pvpc_item scenario_prices]
      None 22 7 (binary64_round 14.8) []
    = (Ok r, [price_request "2024-01-15"])
    /\ recommended_hours r = map format_hour best_hours
    /\ StronglySorted Z.le best_hours
    /\ 1 <= Py.len best_hours <= 2
    /\ query_date r = "2024-01-15"%string.
Proof.
  assert (Hrun : exists r,
             Sample.best_hours (A := binary64)
               [Sample.pvpc_item scenario_prices]
               None 22 7 (binary64_round 14.8) []
             = (Ok r, [price_request "2024-01-15"]))
    by (eexists; vm_compute; reflexivity).
  destruct Hrun as [r Hrun].
  destruct (recommendation_shape (A := binary64) _ _ _ _ _ _ _ _ _ _ _ Hrun)
    as (best_hours & avg & Hrec & Hsorted & _ & Hlen & _ & _ & Hdate & _).
  exists r, best_hours. split; [exact Hrun |]. split; [exact Hrec |].
  split; [exact Hsorted |]. split; [| exact Hdate].
  assert (Hn : hours_needed_of (A := binary64) (binary64_round 14.8) = 2)
    by (vm_compute; reflexivity).
  rewrite Hn in Hlen. exact Hlen.
Defined.

Lemma summary_shape_witness :
  exists summary,
    Sample.current_prices (A := binary64) [Sample.pvpc_item flat_day]
      (Some "2024-01-15"%string) []
    = (Ok summary, [price_request "2024-01-15"])
    /\ In (min_price summary) (map price_eur_kwh (hourly_prices summary))
    /\ In (max_price summary) (map price_eur_kwh (hourly_prices summary))
    /\ date summary = "2024-01-15"%string.
Proof.
  assert (Hrun : exists summary,
             Sample.current_prices (A := binary64) [Sample.pvpc_item flat_day]
               (Some "2024-01-15"%string) []
             = (Ok summary, [price_request "2024-01-15"]))
    by (eexists; vm_compute; reflexivity).
  destruct Hrun as [summary Hrun]. exists summary. split; [exact Hrun |].
  destruct (summary_shape (A := binary64) _ _ _ _ _ _ _ Hrun)
    as (data & readings & hours & _ & _ & _ & _ & _ & Hmin & Hmax & Hdate & _).
  split; [exact Hmin |]. split; [exact Hmax | exact Hdate].
Defined.

Lemma unknown_tool_is_reported_witness :
  Sample.call (A := binary64) [Sample.pvpc_item scenario_prices]
    "get_prices" Sample.no_arguments []
  = (["Error in charging advisor: Unknown tool: get_prices"%string], []).
Proof.
  assert (H1 : "get_prices"%string <> GET_BEST_CHARGING_HOURS)
    by discriminate.
  assert (H2 : "get_prices"%string <> GET_CURRENT_PVPC_PRICES)
    by discriminate.
  exact (unknown_tool_is_reported (A := binary64)
           (Sample.transport [Sample.pvpc_item scenario_prices]) Sample.today
           Sample.hour_of_timestamp Sample.show_float explanation date
           (fun _ => "exception"%string) "get_prices" Sample.no_arguments []
           H1 H2).
Defined.

Lemma call_tool_rejected_date_witness :
  Sample.call (A := binary64) [Sample.pvpc_item scenario_prices]
    GET_CURRENT_PVPC_PRICES
    {| arg_date := Some "15-01-2024"%string; arg_start_hour := None;
       arg_end_hour := None; arg_kwh := None |} []
  = (["Error in charging advisor: Invalid date format. Use YYYY-MM-DD"%string],
     []).
Proof.
  assert (Hname : In GET_CURRENT_PVPC_PRICES (map tool_name list_tools))
    by (right; left; reflexivity).
  assert (Hbad : exists e, strptime_Ymd "15-01-2024" = Raise e)
    by (exists ValueError; reflexivity).
  exact (call_tool_rejected_date (A := binary64)
           (Sample.transport [Sample.pvpc_item scenario_prices]) Sample.today
           Sample.hour_of_timestamp Sample.show_float explanation date
           (fun _ => "exception"%string) GET_CURRENT_PVPC_PRICES
           {| arg_date := Some "15-01-2024"%string; arg_start_hour := None;
              arg_end_hour := None; arg_kwh := None |}
           "15-01-2024" [] Hname eq_refl Hbad).
Defined.

Lemma call_tool_reports_fetch_error_witness :
  call_tool (A := binary64) (fun _ => Response 503 {| included := None |})
    Sample.today Sample.hour_of_timestamp Sample.show_float explanation date
    (fun _ => "exception"%string) GET_BEST_CHARGING_HOURS
    Sample.no_arguments []
  = (["Error in charging advisor: REE API error: 503"%string],
     [price_request "2024-01-15"]).
Proof.
  assert (Hname : In GET_BEST_CHARGING_HOURS (map tool_name list_tools))
    by (left; reflexivity).
  assert (Hd : checked_date Sample.today (arg_date Sample.no_arguments)
               = Ok "2024-01-15"%string) by reflexivity.
  assert (Hfetch :
            fst (get_pvpc_prices
                   (fun _ => Response 503 {| included := None |})
                   "2024-01-15" [])
            = Raise (McpError "REE API error: 503")) by reflexivity.
  exact (call_tool_reports_fetch_error (A := binary64)
           (fun _ => Response 503 {| included := None |}) Sample.today
           Sample.hour_of_timestamp Sample.show_float explanation date
           (fun _ => "exception"%string) GET_BEST_CHARGING_HOURS
           Sample.no_arguments "2024-01-15" "REE API error: 503" []
           Hname Hd Hfetch).
Defined.


Lemma admitted_kwh_14_8 : admitted "kwh" 14.8.
Proof.
  exists (hd {| tool_name := ""; tool_description := ""; properties := [];
                required := [] |} list_tools).
  eexists. exists 0.1%Q, 100.0%Q. cbn.
  split; [left; reflexivity |]. split; [reflexivity |].
  split; [right; right; right; left; reflexivity |].
  split; [reflexivity |]. split; [reflexivity |].
  split; vm_compute; discriminate.
Qed.

Lemma admitted_hour (key : string) (h : Z) :
  key = "start_hour"%string \/ key = "end_hour"%string ->
  0 <= h <= 23 -> admitted key (inject_Z h).
Proof.
  intros Hkey Hh.
  exists (hd {| tool_name := ""; tool_description := ""; properties := [];
                required := [] |} list_tools).
  destruct Hkey as [-> | ->]; eexists; exists 0%Q, 23%Q; cbn.
  - split; [left; reflexivity |]. split; [reflexivity |].
    split; [right; left; reflexivity |].
    split; [reflexivity |]. split; [reflexivity |].
    change 0%Q with (inject_Z 0). change 23%Q with (inject_Z 23).
    rewrite <- !Zle_Qle. exact Hh.
  - split; [left; reflexivity |]. split; [reflexivity |].
    split; [right; right; left; reflexivity |].
    split; [reflexivity |]. split; [reflexivity |].
    change 0%Q with (inject_Z 0). change 23%Q with (inject_Z 23).
    rewrite <- !Zle_Qle. exact Hh.
Qed.

Lemma admitted_energy_hours_witness :
  admitted "kwh" 14.8
  /\ 1 <= hours_needed_of (A := binary64_compensated) 14.8 <= 14.
Proof.
  assert (HA : In binary64_compensated arithmetics)
    by (right; right; left; reflexivity).
  split; [exact admitted_kwh_14_8 |].
  exact (admitted_energy_hours binary64_compensated HA 14.8 admitted_kwh_14_8).
Defined.

Lemma recommendation_within_schema_witness :
  exists r best_hours,
    Sample.best_hours (A := binary64) [Sample.pvpc_item scenario_prices]
      None 22 7 14.8 []
    = (Ok r, [price_request "2024-01-15"])
    /\ recommended_hours r = map format_hour best_hours
    /\ Forall (fun h => 0 <= h <= 23) best_hours
    /\ 1 <= Py.len best_hours <= 14.
Proof.
  assert (HA : In binary64 arithmetics) by (right; left; reflexivity).
  assert (Hs : admitted "start_hour" (inject_Z 22))
    by (apply admitted_hour; [now left | lia]).
  assert (He : admitted "end_hour" (inject_Z 7))
    by (apply admitted_hour; [now right | lia]).
  assert (Hrun : exists r,
             Sample.best_hours (A := binary64)
               [Sample.pvpc_item scenario_prices] None 22 7 14.8 []
             = (Ok r, [price_request "2024-01-15"]))
    by (eexists; vm_compute; reflexivity).
  destruct Hrun as [r Hrun].
  destruct (recommendation_within_schema binary64 HA _ _ _ _ _ _ _ _ _ _ _
              Hs He admitted_kwh_14_8 Hrun)
    as (best_hours & Hrec & _ & Hrange & _ & Hlen).
  exists r, best_hours. split; [exact Hrun |]. split; [exact Hrec |].
  split; [exact Hrange | exact Hlen].
Defined.

Lemma summary_extremes_bound_prices_witness :
  exists summary,
    Sample.current_prices (A := binary64) [Sample.pvpc_item scenario_prices]
      None []
    = (Ok summary, [price_request "2024-01-15"])
    /\ Forall (fun listed =>
                 (min_price summary <= price_eur_kwh listed
                  /\ price_eur_kwh listed <= max_price summary)%Q)
         (hourly_prices summary).
Proof.
  assert (HA : In binary64 arithmetics) by (right; left; reflexivity).
  assert (Hrun : exists summary,
             Sample.current_prices (A := binary64)
               [Sample.pvpc_item scenario_prices] None []
             = (Ok summary, [price_request "2024-01-15"]))
    by (eexists; vm_compute; reflexivity).
  destruct Hrun as [summary Hrun]. exists summary. split; [exact Hrun |].
  exact (summary_extremes_bound_prices binary64 HA _ _ _ _ _ _ _ Hrun).
Defined.

(** ** The labels of the hours *)

Lemma to_int_normal (z : Z) : Decimal.norm (Z.to_int z) = Z.to_int z.
Proof. rewrite <- DecimalZ.to_of, DecimalZ.of_to. reflexivity. Qed.

Lemma to_int_not_nil (z : Z) :
  Z.to_int z <> Decimal.Pos Decimal.Nil /\ Z.to_int z <> Decimal.Neg Decimal.Nil.
Proof.
  pose proof (to_int_normal z) as H.
  split; intros E; rewrite E in H; discriminate H.
Qed.

Lemma str_int_inj (n m : Z) : str_int n = str_int m -> n = m.
Proof.
  unfold str_int. intros H.
  apply (f_equal NilZero.int_of_string) in H.
  destruct (to_int_not_nil n) as [Hn1 Hn2].
  destruct (to_int_not_nil m) as [Hm1 Hm2].
  rewrite !NilZero.isi in H by assumption.
  injection H as H. now apply DecimalZ.to_int_inj.
Qed.

(** [str] writes no leading zero: only the numeral of 0 starts with "0". *)
Lemma str_int_leading_zero (m : Z) (rest : string) :
  str_int m = String "0" rest -> rest = ""%string.
Proof.
  unfold str_int. pose proof (to_int_normal m) as Hnorm.
  destruct (Z.to_int m) as [u | u]; cbn [NilZero.string_of_int];
    [| discriminate].
  unfold NilZero.string_of_uint.
  destruct u as [| u' | | | | | | | | |]; cbn [NilEmpty.string_of_uint];
    intros H; try discriminate H.
  - now injection H as <-.
  - injection H as <-.
    cbn [Decimal.norm] in Hnorm. rewrite DecimalFacts.unorm_D0 in Hnorm.
    injection Hnorm as Hu.
    destruct u' as [| | | | | | | | | |]; try reflexivity;
      match type of Hu with
      | Decimal.unorm ?v = _ =>
          pose proof (DecimalFacts.nb_digits_unorm v ltac:(discriminate))
            as Hlen;
          rewrite Hu in Hlen; cbn [Decimal.nb_digits] in Hlen; lia
      end.
Qed.

Lemma str_int_nonempty (n : Z) : str_int n <> ""%string.
Proof.
  unfold str_int. destruct (Z.to_int n) as [u | u]; cbn; [| discriminate].
  unfold NilZero.string_of_uint. destruct u; cbn; discriminate.
Qed.

Lemma format_02d_inj (n m : Z) : format_02d n = format_02d m -> n = m.
Proof.
  unfold format_02d.
  destruct (String.length (str_int n) <? 2)%nat eqn:En;
    destruct (String.length (str_int m) <? 2)%nat eqn:Em; intros H.
  - apply str_int_inj. cbn in H. now injection H.
  - cbn in H. symmetry in H. pose proof (str_int_leading_zero _ _ H) as Hs.
    exfalso. now apply (str_int_nonempty n).
  - cbn in H. pose proof (str_int_leading_zero _ _ H) as Hs.
    exfalso. now apply (str_int_nonempty m).
  - now apply str_int_inj.
Qed.

Lemma string_length_append (s t : string) :
  String.length (s ++ t) = (String.length s + String.length t)%nat.
Proof. induction s as [| c s IH]; cbn; congruence. Qed.

Lemma append_inv_tail (s1 s2 t : string) :
  (s1 ++ t = s2 ++ t)%string -> s1 = s2.
Proof.
  revert s2. induction s1 as [| c s1 IH]; intros s2 H.
  - destruct s2 as [| d s2]; [reflexivity |].
    apply (f_equal String.length) in H.
    cbn [append String.length] in H. rewrite string_length_append in H. lia.
  - destruct s2 as [| d s2].
    + apply (f_equal String.length) in H.
      cbn [append String.length] in H. rewrite string_length_append in H. lia.
    + cbn [append] in H. injection H as <- H. f_equal. now apply IH.
Qed.

Lemma format_hour_inj (n m : Z) : format_hour n = format_hour m -> n = m.
Proof.
  unfold format_hour. intros H. apply format_02d_inj.
  now apply append_inv_tail in H.
Qed.

(** X25. Two hours have the same label only when they are the same hour,
    whatever the integers; so the labels of a recommendation or of a summary
    tell the hours, and the hours of the range 0 to 23 have 24 labels of five
    characters. *)
Theorem labels_tell_hours :
  (forall n m, format_hour n = format_hour m <-> n = m)
  /\ (forall hours1 hours2,
        map format_hour hours1 = map format_hour hours2 <-> hours1 = hours2)
  /\ NoDup (map format_hour (Py.range 0 24))
  /\ Forall (fun label => String.length label = 5%nat)
       (map format_hour (Py.range 0 24)).
Proof.
  split; [| split; [| split]].
  - intros n m. split; [apply format_hour_inj | now intros ->].
  - intros hours1. induction hours1 as [| h hours1 IH]; intros hours2.
    + destruct hours2; cbn; split; intros H; try reflexivity; discriminate H.
    + destruct hours2 as [| k hours2]; cbn [map];
        split; intros H; try discriminate H.
      * injection H as Hh Hrest. apply format_hour_inj in Hh.
        apply IH in Hrest. congruence.
      * injection H as -> ->. reflexivity.
  - apply Finite.Injective_map_NoDup; [| apply range_NoDup].
    intros n m. apply format_hour_inj.
  - vm_compute. repeat constructor.
Qed.

(** ** The date of today *)

Lemma years_read_back :
  forallb year_reads_back (Py.range 1000 10000) = true.
Proof. vm_compute. reflexivity. Qed.

Lemma year_digits (year : Z) :
  1000 <= year <= 9999 ->
  exists y1 y2 y3 y4,
    list_ascii_of_string (str_int year) = [y1; y2; y3; y4]
    /\ is_digit y1 && is_digit y2 && is_digit y3 && is_digit y4 = true
    /\ 1000 * digit_value y1 + 100 * digit_value y2
       + 10 * digit_value y3 + digit_value y4 = year.
Proof.
  intros Hy. pose proof years_read_back as H.
  rewrite forallb_forall in H.
  specialize (H year ltac:(apply range_In; lia)).
  unfold year_reads_back in H.
  destruct (list_ascii_of_string (str_int year))
    as [| y1 [| y2 [| y3 [| y4 [| y5 rest]]]]]; try discriminate H.
  apply andb_prop in H. destruct H as [Hd He]. apply Z.eqb_eq in He.
  now exists y1, y2, y3, y4.
Qed.

Lemma list_ascii_app (s t : string) :
  list_ascii_of_string (s ++ t)
  = list_ascii_of_string s ++ list_ascii_of_string t.
Proof. induction s as [| c s IH]; cbn; congruence. Qed.

(** The month and the day written with two digits are read back by the
    pattern of [strptime], whatever the year before them. *)
Lemma month_day_read_back (month day : Z) :
  1 <= month <= 12 -> 1 <= day <= 31 ->
  exists m1 m2 d1 d2,
    list_ascii_of_string ("-" ++ format_02d month ++ "-" ++ format_02d day)
    = ["-"; m1; m2; "-"; d1; d2]%char
    /\ is_digit m1 && is_digit m2 && is_digit d1 && is_digit d2 = true
    /\ forall year : Z,
        expect_dash
          (first_match month_alternatives
             (fun month' => expect_dash
                (first_match day_alternatives
                   (fun day' left => Some (year, month', day', left)))))
          ["-"; m1; m2; "-"; d1; d2]%char
        = Some (year, month, day, []).
Proof.
  intros Hm Hd.
  assert (Hm' : In month (Py.range 1 13)) by (apply range_In; lia).
  assert (Hd' : In day (Py.range 1 32)) by (apply range_In; lia).
  vm_compute in Hm'. vm_compute in Hd'.
  repeat (destruct Hm' as [<- | Hm']; [| try contradiction]);
    repeat (destruct Hd' as [<- | Hd']; [| try contradiction]);
    (do 4 eexists; split; [vm_compute; reflexivity |];
     split; [reflexivity |]; intros year; vm_compute; reflexivity).
Qed.

(** X26. A date of the calendar with a year of four digits, written as
    [strftime] writes it, matches the pattern of the schema and is read back
    by [strptime] as the same date; so a call without a date, on any such day,
    gets past the validation with the date of today. *)
Theorem formatted_dates_pass (year month day : Z) :
  1000 <= year <= 9999 ->
  1 <= month <= 12 ->
  1 <= day <= days_in_month year month ->
  let today := strftime_Ymd year month day in
  strptime_Ymd today = Ok (year, month, day)
  /\ matches_YYYY_MM_DD today = true
  /\ checked_date today None = Ok today
  /\ checked_date today (Some today) = Ok today.
Proof.
  intros Hy Hm Hd today.
  pose proof (days_in_month_bounds year month) as Hdim.
  destruct (year_digits year Hy) as (y1 & y2 & y3 & y4 & Hchars & Hdig & Hval).
  destruct (month_day_read_back month day Hm ltac:(lia))
    as (m1 & m2 & d1 & d2 & Hsuffix & Hdig' & Hread).
  assert (Hlist : list_ascii_of_string today
                  = [y1; y2; y3; y4; "-"; m1; m2; "-"; d1; d2]%char).
  { subst today. unfold strftime_Ymd.
    rewrite list_ascii_app, Hchars, Hsuffix. reflexivity. }
  assert (Hparse : strptime_Ymd today = Ok (year, month, day)).
  { unfold strptime_Ymd, match_Ymd. rewrite Hlist, Hdig. cbv zeta.
    rewrite Hval, Hread.
    replace ((1 <=? year) && (1 <=? day) && (day <=? days_in_month year month))
      with true; [reflexivity |].
    symmetry. apply andb_true_intro. split; [| apply Z.leb_le; lia].
    apply andb_true_intro. split; apply Z.leb_le; lia. }
  split; [exact Hparse |]. split.
  - unfold matches_YYYY_MM_DD. rewrite Hlist.
    apply andb_prop in Hdig'. destruct Hdig' as [Hdig' D2].
    apply andb_prop in Hdig'. destruct Hdig' as [Hdig' D1].
    apply andb_prop in Hdig'. destruct Hdig' as [M1 M2].
    rewrite Hdig, M1, M2, D1, D2. reflexivity.
  - unfold checked_date. rewrite Hparse. split; reflexivity.
Qed.

Lemma formatted_dates_pass_witness :
  strptime_Ymd (strftime_Ymd 2024 2 29) = Ok (2024, 2, 29)
  /\ matches_YYYY_MM_DD (strftime_Ymd 2024 2 29) = true.
Proof.
  assert (Hy : 1000 <= 2024 <= 9999) by lia.
  assert (Hm : 1 <= 2 <= 12) by lia.
  assert (Hd : 1 <= 29 <= days_in_month 2024 2) by (vm_compute; split; discriminate).
  destruct (formatted_dates_pass 2024 2 29 Hy Hm Hd) as (Hparse & Hmatch & _).
  split; [exact Hparse | exact Hmatch].
Defined.
